(** * oscars.py: budgets of the Best Picture winners

    A shallow embedding of [oscars.py] and the properties of its budget
    parser, its formatter, its year reader and its report loop.

    Conventions of the embedding:
    - a Python [str] is a [string]; a character is the code point below 256
      that the [ascii] stands for;
    - a call that can raise returns a [result]: [Ok v] or [Raise e];
    - a Python [float] is a binary64 number, [spec_float] with [prec = 53]
      and [emax = 1024]; an [int] is a [Z];
    - a [bs4] element is a node of the document together with the chain of
      its ancestors, so that [.parent] can be followed. *)

From Stdlib Require Import ZArith QArith List String Ascii Bool Lia.
From Stdlib Require Import DecimalString DecimalN.
From Stdlib Require Import SpecFloat.
Import ListNotations.

Open Scope list_scope.
Open Scope string_scope.
Open Scope Z_scope.

(** ** The Python fragment the script runs on *)

Module Py.

(** The exceptions the script can meet. [URLError] stands for whatever
    [urllib] or the markup parser raises when a page cannot be had. *)
Inductive exn : Set :=
| IndexError | ValueError | ZeroDivisionError | OverflowError
| AttributeError | KeyError | URLError.

Inductive result (A : Type) : Type :=
| Ok (a : A)
| Raise (e : exn).
Arguments Ok {A} a.
Arguments Raise {A} e.

Definition bind {A B} (r : result A) (k : A -> result B) : result B :=
  match r with
  | Ok a => k a
  | Raise e => Raise e
  end.

(** *** Strings *)

(** [c in s] for a one-character [c]. *)
Fixpoint char_in (c : ascii) (s : string) : bool :=
  match s with
  | EmptyString => false
  | String a s' => Ascii.eqb c a || char_in c s'
  end.

(** [str.isspace] on the code points below 256: TAB, LF, VT, FF, CR, the
    four separators FS GS RS US, SPACE, NEL and NO-BREAK SPACE. *)
Definition isspace (c : ascii) : bool :=
  let n := N_of_ascii c in
  (((9 <=? n) && (n <=? 13)) || ((28 <=? n) && (n <=? 32))
   || (n =? 133) || (n =? 160))%N.

(** [''.join(c for c in s if p(c))] *)
Fixpoint filter (p : ascii -> bool) (s : string) : string :=
  match s with
  | EmptyString => EmptyString
  | String c s' => if p c then String c (filter p s') else filter p s'
  end.

(** [s[n:]] for [n >= 0] *)
Fixpoint drop (n : nat) (s : string) : string :=
  match n, s with
  | O, _ => s
  | S n', EmptyString => EmptyString
  | S n', String _ s' => drop n' s'
  end.

Definition slice_from (i : Z) (s : string) : string :=
  if i <? 0 then drop (Z.to_nat (Z.max 0 (Z.of_nat (String.length s) + i))) s
  else drop (Z.to_nat i) s.

(** [s.startswith(p)] *)
Definition startswith (s p : string) : bool := String.prefix p s.

Fixpoint find_from (sub s : string) (i : Z) : Z :=
  if String.prefix sub s then i
  else match s with
       | EmptyString => -1
       | String _ s' => find_from sub s' (i + 1)
       end.

(** [s.find(sub)]: the least index where [sub] occurs, or [-1]. *)
Definition find (s sub : string) : Z := find_from sub s 0.

(** [sub in s] *)
Definition contains (sub s : string) : bool := negb (find s sub =? -1).

Definition emit (cur : string) (l : list string) : list string :=
  match cur with
  | EmptyString => l
  | _ => cur :: l
  end.

(** The scanner of [split]: [cur] is the token being read. *)
Fixpoint split_from (cur s : string) : list string :=
  match s with
  | EmptyString => emit cur []
  | String c s' =>
      if isspace c then emit cur (split_from EmptyString s')
      else split_from (cur ++ String c EmptyString) s'
  end.

(** [s.split()]: the maximal runs of non-blank characters. *)
Definition split (s : string) : list string := split_from EmptyString s.

(** [sep.join(l)] *)
Fixpoint join (sep : string) (l : list string) : string :=
  match l with
  | [] => EmptyString
  | [x] => x
  | x :: l' => x ++ sep ++ join sep l'
  end.

Fixpoint spaces (n : nat) : string :=
  match n with
  | O => EmptyString
  | S n' => String " " (spaces n')
  end.

(** ['{:>w}'.format(s)] and ['{:w}'.format(s)] for a string [s]: padding,
    never truncation. *)
Definition rjust (w : nat) (s : string) : string :=
  spaces (w - String.length s) ++ s.

Definition ljust (w : nat) (s : string) : string :=
  s ++ spaces (w - String.length s).

(** [l[i]] *)
Definition index {A} (l : list A) (i : nat) : result A :=
  match nth_error l i with
  | Some a => Ok a
  | None => Raise IndexError
  end.

(** *** Numbers *)

Definition prec : Z := 53.
Definition emax : Z := 1024.

Inductive number : Set :=
| PyInt (z : Z)
| PyFloat (f : spec_float).

(** The binary64 number nearest to [n / d], ties to even, for [d > 0]. *)
Definition float_of_ratio (n d : Z) : spec_float :=
  match n with
  | Z0 => S754_zero false
  | Zpos _ =>
      let '(q, e, l) := SFdiv_core_binary prec emax n 0 d 0 in
      binary_round_aux prec emax false q e l
  | Zneg _ =>
      let '(q, e, l) := SFdiv_core_binary prec emax (- n) 0 d 0 in
      binary_round_aux prec emax true q e l
  end.

Definition is_digit (c : ascii) : bool := char_in c "0123456789".

Definition digit_value (c : ascii) : Z := Z.of_N (N_of_ascii c) - 48.

(** Reads [digits [. digits]] or [. digits]: the digits seen so far make
    the integer [m], [k] of them stand after the point. *)
Fixpoint scan_decimal (s : string) (dot any : bool) (m k : Z)
  : option (Z * Z) :=
  match s with
  | EmptyString => if any then Some (m, k) else None
  | String c s' =>
      if is_digit c then
        scan_decimal s' dot true (10 * m + digit_value c)
                     (if dot then k + 1 else k)
      else if Ascii.eqb c "." then
        if dot then None else scan_decimal s' true any m k
      else None
  end.

(** [float(s)] on the strings made of digits and points, the only ones
    [parse_number] hands over: a decimal numeral with at most one point
    and at least one digit is rounded to the nearest binary64 number (an
    overlong one to infinity), anything else is a [ValueError]. Signs,
    exponents, blanks, underscores, [inf] and [nan], which the builtin
    also reads, are outside this fragment. *)
Definition float (s : string) : result spec_float :=
  match scan_decimal s false false 0 0 with
  | Some (m, k) => Ok (float_of_ratio m (10 ^ k))
  | None => Raise ValueError
  end.

(** [float(z)] for an [int]. *)
Definition float_of_int (z : Z) : result spec_float :=
  match binary_normalize prec emax z 0 false with
  | S754_infinity _ => Raise OverflowError
  | f => Ok f
  end.

(** [bool(x)] for a [float]: every value but the two zeros. *)
Definition float_truth (f : spec_float) : bool :=
  match f with
  | S754_zero _ => false
  | _ => true
  end.

(** [x * z] for a float [x] and an int [z]. *)
Definition mul_int (x : spec_float) (z : Z) : result spec_float :=
  bind (float_of_int z) (fun y => Ok (SFmul prec emax x y)).

(** [a + x] for a float [x]. *)
Definition add_float (a : number) (x : spec_float) : result number :=
  match a with
  | PyInt z => bind (float_of_int z) (fun y => Ok (PyFloat (SFadd prec emax y x)))
  | PyFloat y => Ok (PyFloat (SFadd prec emax y x))
  end.

(** [a / z] for an int [z]. *)
Definition truediv_int (a : number) (z : Z) : result spec_float :=
  match a with
  | PyInt n =>
      if z =? 0 then Raise ZeroDivisionError
      else
        match float_of_ratio (n * Z.sgn z) (Z.abs z) with
        | S754_infinity _ => Raise OverflowError
        | f => Ok f
        end
  | PyFloat x =>
      bind (float_of_int z) (fun y =>
        if float_truth y then Ok (SFdiv prec emax x y)
        else Raise ZeroDivisionError)
  end.

(** [n / d] to the nearest integer, ties to even, for [d > 0]. *)
Definition round_half_even (n d : Z) : Z :=
  let q := n / d in
  match 2 * (n mod d) ?= d with
  | Lt => q
  | Eq => if Z.even q then q else q + 1
  | Gt => q + 1
  end.

(** [round(x)] with one argument. *)
Definition round (x : spec_float) : result Z :=
  match x with
  | S754_zero _ => Ok 0
  | S754_infinity _ => Raise OverflowError
  | S754_nan => Raise ValueError
  | S754_finite s m e =>
      let a := if 0 <=? e then Zpos m * 2 ^ e
               else round_half_even (Zpos m) (2 ^ (- e)) in
      Ok (if s then - a else a)
  end.

Definition round_number (x : number) : result Z :=
  match x with
  | PyInt z => Ok z
  | PyFloat f => round f
  end.

Definition number_truth (x : number) : bool :=
  match x with
  | PyInt z => negb (z =? 0)
  | PyFloat f => float_truth f
  end.

(** The digits of a numeral, last first, with a comma before every
    fourth one; [n] digits may still join the group being filled. *)
Fixpoint commas_rev (l : list ascii) (n : nat) : list ascii :=
  match l with
  | [] => []
  | c :: l' =>
      match n with
      | O => "," :: c :: commas_rev l' 2
      | S n' => c :: commas_rev l' n'
      end
  end%char.

Definition group_thousands (digits : string) : string :=
  string_of_list_ascii
    (rev (commas_rev (rev (list_ascii_of_string digits)) 3)).

(** [str(z)] for [z >= 0] *)
Definition str_of_nonneg (z : Z) : string :=
  NilZero.string_of_uint (N.to_uint (Z.to_N z)).

(** ['{:,}'.format(z)] *)
Definition format_comma (z : Z) : string :=
  (if z <? 0 then "-" else "") ++ group_thousands (str_of_nonneg (Z.abs z)).

(** ['{:,.0f}'.format(x)] *)
Definition format_comma_f0 (x : spec_float) : string :=
  match x with
  | S754_nan => "nan"
  | S754_infinity s => (if s then "-" else "") ++ "inf"
  | S754_zero s => (if s then "-" else "") ++ "0"
  | S754_finite s m e =>
      let a := if 0 <=? e then Zpos m * 2 ^ e
               else round_half_even (Zpos m) (2 ^ (- e)) in
      (if s then "-" else "") ++ group_thousands (str_of_nonneg a)
  end.

End Py.

Import Py.

Notation "x <- r ;; k" := (bind r (fun x => k))
  (at level 61, r at next level, right associativity).

(** ** The budget parser *)

(** [parse_number]: keep the digits and the points, convert the rest. *)
Definition parse_number (text : string) : result spec_float :=
  float (filter (fun c => char_in c "0123456789.") text).

(** [parse_budget]: [None] stands for the text that has no dollar sign. *)
Definition parse_budget (text : string) : result (option spec_float) :=
  let i := find text "$" in
  if i =? -1 then Ok None
  else
    let parts := split (slice_from (i + 1) text) in
    value <- index parts 0 ;;
    value <- parse_number value ;;
    if (1 <? Z.of_nat (List.length parts))
       && match nth_error parts 1 with
          | Some p => startswith p "million"
          | None => false
          end
    then v <- mul_int value 1000000 ;; Ok (Some v)
    else Ok (Some value).

(** ** The document tree of the markup parser *)

Module Soup.

(** A node is a piece of text or a tag with its attributes and contents;
    the object that [BeautifulSoup(...)] returns is the tag at the root. *)
#[warnings="-register-all"] Inductive node : Type :=
| NavigableString (text : string)
| Tag (name : string) (attrs : list (string * string)) (contents : list node).

(** An element as the script holds it: the node and its ancestors, the
    nearest first. The root has none. *)
Record element : Type := Element { self : node; ancestors : list node }.

(** The nodes below [n] in document order, [up] being the ancestors of [n]. *)
Fixpoint descendants_in (up : list node) (n : node) : list element :=
  match n with
  | NavigableString _ => []
  | Tag _ _ cs =>
      flat_map (fun c => Element c (n :: up) :: descendants_in (n :: up) c) cs
  end.

Definition descendants (e : element) : list element :=
  descendants_in (ancestors e) (self e).

(** [e.parent] *)
Definition parent (e : element) : option element :=
  match ancestors e with
  | [] => None
  | p :: up => Some (Element p up)
  end.

Definition is_tag (name : string) (e : element) : bool :=
  match self e with
  | Tag n _ _ => String.eqb n name
  | NavigableString _ => false
  end.

Definition text_of (e : element) : list string :=
  match self e with
  | NavigableString s => [s]
  | Tag _ _ _ => []
  end.

(** [e.find_all(name)] and [e.find(name)] *)
Definition find_all (e : element) (name : string) : list element :=
  List.filter (is_tag name) (descendants e).

Definition find (e : element) (name : string) : option element :=
  hd_error (find_all e name).

(** [e.find_all(text=True)] and [e.find(text=True)] *)
Definition find_all_text (e : element) : list string :=
  flat_map text_of (descendants e).

Definition find_text (e : element) : option string :=
  hd_error (find_all_text e).

(** Reaching into what may be [None]. *)
Definition deref {A} (x : option A) : result A :=
  match x with
  | Some a => Ok a
  | None => Raise AttributeError
  end.

Fixpoint lookup (key : string) (d : list (string * string)) : result string :=
  match d with
  | [] => Raise KeyError
  | (k, v) :: d' => if String.eqb k key then Ok v else lookup key d'
  end.

(** [e.attrs[key]] *)
Definition attr (e : element) (key : string) : result string :=
  match self e with
  | Tag _ attrs _ => lookup key attrs
  | NavigableString _ => Raise AttributeError
  end.

End Soup.

Import Soup.

(** ** The functions of the script *)

(** [x or ''] *)
Definition or_empty (x : option string) : string :=
  match x with
  | Some s => s
  | None => ""
  end.

(** [str(x)] for a string or [None] *)
Definition str (x : option string) : string :=
  match x with
  | Some s => s
  | None => "None"
  end.

(** [bool(budget)] for a number or [None] *)
Definition truth (budget : option number) : bool :=
  match budget with
  | Some x => number_truth x
  | None => false
  end.

(** [format_budget] with its default [width] and [prefix], as every call
    has them. *)
Definition format_budget (budget : option number) : result string :=
  let width := 14 in
  let prefix := "$ " in
  let wide := fun thin =>
    prefix ++ rjust (Z.to_nat (width - Z.of_nat (String.length prefix))) thin in
  thin <- match budget with
          | Some x => if number_truth x
                      then n <- round_number x ;; Ok (format_comma n)
                      else Ok "-"
          | None => Ok "-"
          end ;;
  Ok (wide thin).

Definition get_budget (page : element) : result string :=
  let ths := List.filter (fun th => contains "Budget" (or_empty (find_text th)))
                         (find_all page "th") in
  match ths with
  | [] => Ok ""
  | th :: _ =>
      up <- deref (parent th) ;;
      td <- deref (find up "td") ;;
      Ok (join " " (find_all_text td))
  end.

Definition get_link (td : option element) : result string :=
  td <- deref td ;;
  a <- deref (find td "a") ;;
  attr a "href".

Definition get_title (td : option element) : result string :=
  td <- deref td ;;
  Ok (str (find_text td)).

Definition get_year (big : element) : result string :=
  let texts := find_all_text big in
  let multi := (1 <? Z.of_nat (List.length texts))
               && match nth_error texts 1 with
                  | Some t => String.eqb t "/"
                  | None => false
                  end in
  if multi then Ok (join "" (firstn 3 texts))
  else t <- index texts 0 ;; Ok t.

Definition parse_big (big : element) : result (string * string * string) :=
  up <- deref (parent big) ;;
  table <- deref (parent up) ;;
  let td := find table "td" in
  year <- get_year big ;;
  title <- get_title td ;;
  link <- get_link td ;;
  Ok (year, title, link).

(** ** The report *)

(** A computation that writes to the stream [out] and may raise: what was
    written before the exception stays written. *)
Definition io (A : Type) : Type := string -> result A * string.

Definition ret {A} (a : A) : io A := fun out => (Ok a, out).

Definition lift {A} (r : result A) : io A := fun out => (r, out).

Definition io_bind {A B} (m : io A) (k : A -> io B) : io B :=
  fun out =>
    match m out with
    | (Ok a, out') => k a out'
    | (Raise e, out') => (Raise e, out')
    end.

Notation "x <~ m ;; k" := (io_bind m (fun x => k))
  (at level 61, m at next level, right associativity).

(** [print(s, file=out)] *)
Definition print (s : string) : io unit :=
  fun out => (Ok tt, out ++ s ++ String "010" "").

(** [for x in l: st = body(x, st)] *)
Fixpoint for_each {A S} (l : list A) (body : A -> S -> io S) (st : S) : io S :=
  match l with
  | [] => ret st
  | x :: l' => st' <~ body x st ;; for_each l' body st'
  end.

Section Report.

(** The network: what the address answers, parsed, or the error raised on
    the way. *)
Variable web : string -> result node.

Definition fetch (base path : string) : result element :=
  doc <- web (base ++ path) ;;
  Ok (Element doc []).

(** The accumulators [count] and [total]. *)
Definition acc : Type := (Z * number)%type.

(** [if budget: count += 1; total += budget] *)
Definition tally (budget : option spec_float) (st : acc) : result acc :=
  let '(count, total) := st in
  if truth (option_map PyFloat budget) then
    match budget with
    | Some b => total' <- add_float total b ;; Ok (count + 1, total')
    | None => Ok (count, total)
    end
  else Ok (count, total).

(** One turn of the loop of [main]. *)
Definition row (base : string) (big : element) (st : acc) : io acc :=
  ytl <~ lift (parse_big big) ;;
  let '(year, title, link) := ytl in
  page <~ lift (fetch base link) ;;
  budget <~ lift (text <- get_budget page ;; parse_budget text) ;;
  st' <~ lift (tally budget st) ;;
  cell <~ lift (format_budget (option_map PyFloat budget)) ;;
  _ <~ print (ljust 8 year ++ " " ++ ljust 50 title ++ " " ++ cell) ;;
  ret st'.

(** The rows of the report: everything [main] does before the average. *)
Definition rows (base : string) : io acc :=
  let path := "/wiki/Academy_Award_for_Best_Picture" in
  soup <~ lift (fetch base path) ;;
  let bigs := find_all soup "big" in
  for_each bigs (row base) (0, PyInt 0).

(** The last statement of [main]. *)
Definition average (st : acc) : io unit :=
  let '(count, total) := st in
  avg <~ lift (truediv_int total count) ;;
  print ("----" ++ String "010" "" ++ "Average: $ " ++ format_comma_f0 avg).

Definition main (base : string) : io unit :=
  st <~ rows base ;;
  average st.

End Report.

(** ** What the specification speaks of *)

Fixpoint all_chars (p : ascii -> bool) (s : string) : bool :=
  match s with
  | EmptyString => true
  | String c s' => p c && all_chars p s'
  end.

Fixpoint count_char (c : ascii) (s : string) : nat :=
  match s with
  | EmptyString => O
  | String a s' => (if Ascii.eqb a c then 1 else 0) + count_char c s'
  end.

Definition has_digit (s : string) : bool :=
  negb (all_chars (fun c => negb (is_digit c)) s).

(** A numeric token: digits, commas and at most one point, one digit at
    least. *)
Definition well_formed_number (tok : string) : bool :=
  all_chars (fun c => is_digit c || Ascii.eqb c "," || Ascii.eqb c ".") tok
  && (count_char "." tok <=? 1)%nat
  && has_digit tok.

Fixpoint before_point (s : string) : string :=
  match s with
  | EmptyString => EmptyString
  | String c s' => if Ascii.eqb c "." then EmptyString
                   else String c (before_point s')
  end.

Fixpoint after_point (s : string) : string :=
  match s with
  | EmptyString => EmptyString
  | String c s' => if Ascii.eqb c "." then s' else after_point s'
  end.

(** The digits of a token, the separators left out. *)
Fixpoint digits_of (s : string) : list Z :=
  match s with
  | EmptyString => []
  | String c s' => if is_digit c then digit_value c :: digits_of s'
                   else digits_of s'
  end.

Definition step (a d : Z) : Z := 10 * a + d.

Definition of_digits (l : list Z) : Z := fold_left step l 0.

(** The number a token denotes: its integer part, plus its fractional
    digits over the power of ten they reach. *)
Definition number_value (tok : string) : Q :=
  let whole := digits_of (before_point tok) in
  let frac := digits_of (after_point tok) in
  (inject_Z (of_digits whole)
   + (of_digits frac # Z.to_pos (10 ^ Z.of_nat (List.length frac))))%Q.

(** The float a Python literal of that value is. *)
Definition nearest_double (q : Q) : spec_float :=
  float_of_ratio (Qnum q) (Zpos (Qden q)).

Definition million : spec_float := nearest_double (inject_Z 1000000).

(** The characters [parse_number] lets through. *)
Definition keep (c : ascii) : bool := char_in c "0123456789.".

(** The exact value of a finite float. *)
Definition exact_value (x : spec_float) : option Q :=
  match x with
  | S754_zero _ => Some 0%Q
  | S754_finite s m e =>
      let n := if s then Zneg m else Zpos m in
      Some (if 0 <=? e then inject_Z (n * 2 ^ e)
            else (n # Z.to_pos (2 ^ (- e))))%Q
  | _ => None
  end.

(** [x] is finite and its value is the rational [q]. *)
Definition represents (x : spec_float) (q : Q) : Prop :=
  match exact_value x with
  | Some v => (v == q)%Q
  | None => False
  end.

(** Some header cell of the page has a label with [Budget] in it. *)
Definition has_budget_header (page : element) : bool :=
  existsb (fun th => contains "Budget" (or_empty (find_text th)))
          (find_all page "th").

(** The budget cell of a row without a budget. *)
Definition dash_cell : string := "$            -".

(** The line [main] prints for a winner. *)
Definition report_line (year title cell : string) : string :=
  ljust 8 year ++ " " ++ ljust 50 title ++ " " ++ cell.

(** What the loop keeps true of its accumulators: nothing counted and the
    total still the integer it started as, or something counted and the
    total a float. *)
Definition tallied (st : acc) : Prop :=
  let '(count, total) := st in
  (count = 0 /\ total = PyInt 0) \/ (0 < count /\ exists t, total = PyFloat t).

(** ** A small site to run the script on *)

(** A site as the list of its pages; any other address fails. *)
Fixpoint site (pages : list (string * node)) (url : string) : result node :=
  match pages with
  | [] => Raise URLError
  | (u, doc) :: rest => if String.eqb u url then Ok doc else site rest url
  end.

Definition winner_table (year : list node) (href title : string) : node :=
  Tag "table" []
    [Tag "caption" [] [Tag "big" [] year];
     Tag "tr" []
       [Tag "td" [] [Tag "i" [] [Tag "a" [("href", href)] [NavigableString title]]];
        Tag "td" [] [NavigableString "Studio"]]].

Definition infobox (label value : string) : node :=
  Tag "[document]" []
    [Tag "table" []
       [Tag "tr" [] [Tag "th" [] [NavigableString "Directed by"];
                     Tag "td" [] [NavigableString "Somebody"]];
        Tag "tr" [] [Tag "th" [] [NavigableString label];
                     Tag "td" [] [NavigableString value;
                                  Tag "sup" [] [NavigableString "[1]"]]]]].

Definition year_1927_28 : list node :=
  [Tag "a" [] [NavigableString "1927"]; NavigableString "/";
   Tag "a" [] [NavigableString "28"];
   Tag "sup" [] [Tag "a" [("href", "#A")] [NavigableString "[A]"]]].

Definition year_1939 : list node := [NavigableString "1939"].

(** The two markers as [find_all] hands them out, below their caption and
    their table. *)
Definition big_1927_28 : element :=
  Element (Tag "big" [] year_1927_28)
    [Tag "caption" [] [Tag "big" [] year_1927_28];
     winner_table year_1927_28 "/wiki/Wings" "Wings"].

Definition big_1939 : element :=
  Element (Tag "big" [] year_1939)
    [Tag "caption" [] [Tag "big" [] year_1939];
     winner_table year_1939 "/wiki/Gone" "Gone with the Wind"].

Definition example_base : string := "http://en.wikipedia.org".

Definition index_url : string :=
  "http://en.wikipedia.org/wiki/Academy_Award_for_Best_Picture".

(** Two winners, one with a budget of two million dollars, one without a
    budget row. *)
Definition site_one_budget : string -> result node :=
  site [(index_url,
         Tag "[document]" []
           [winner_table year_1927_28 "/wiki/Wings" "Wings";
            winner_table year_1939 "/wiki/Gone" "Gone with the Wind"]);
        ("http://en.wikipedia.org/wiki/Wings", infobox "Budget" "$2 million");
        ("http://en.wikipedia.org/wiki/Gone", infobox "Running time" "221 minutes")].

(** Two winners, one with a budget of zero dollars, one without a budget
    row. *)
Definition site_no_budget : string -> result node :=
  site [(index_url,
         Tag "[document]" []
           [winner_table year_1927_28 "/wiki/Wings" "Wings";
            winner_table year_1939 "/wiki/Gone" "Gone with the Wind"]);
        ("http://en.wikipedia.org/wiki/Wings", infobox "Budget" "$0");
        ("http://en.wikipedia.org/wiki/Gone", infobox "Running time" "221 minutes")].

(** ** Further notions *)

(** The texts [parse_number] can convert: a digit at least, a point at
    most. *)
Definition valid_numeral (text : string) : bool :=
  has_digit text && (count_char "." text <=? 1)%nat.

(** What [parse_budget] makes of the tokens after the dollar sign. *)
Definition budget_of_tokens (parts : list string) : result (option spec_float) :=
  match parts with
  | [] => Raise IndexError
  | tok :: more =>
      if valid_numeral tok then
        let value := nearest_double (number_value tok) in
        match more with
        | second :: _ =>
            if startswith second "million"
            then Ok (Some (SFmul prec emax value million))
            else Ok (Some value)
        | [] => Ok (Some value)
        end
      else Raise ValueError
  end.

(** A float that is neither negative nor a NaN: a zero, a finite number or
    the infinity, with the sign bit clear. *)
Definition unsigned_float (x : spec_float) : bool :=
  match x with
  | S754_zero s | S754_infinity s | S754_finite s _ _ => negb s
  | S754_nan => false
  end.

(** The lines of a stream, each with its end of line. *)
Definition unlines (lines : list string) : string :=
  fold_right (fun l rest => l ++ String "010" rest) "" lines.

(** The budget of a winner, as a turn of the loop gets it. *)
Definition winner_budget (web : string -> result node) (base : string)
    (big : element) : result (option spec_float) :=
  ytl <- parse_big big ;;
  let '(_, _, link) := ytl in
  page <- fetch web base link ;;
  text <- get_budget page ;;
  parse_budget text.

(** The budgets that count: those that are there and are not zero. *)
Definition counted (budgets : list (option spec_float)) : list spec_float :=
  flat_map (fun b => match b with
                     | Some x => if float_truth x then [x] else []
                     | None => []
                     end) budgets.

(** Their sum, added up in order from the integer [0] the total starts as. *)
Definition sum_of (xs : list spec_float) : number :=
  match xs with
  | [] => PyInt 0
  | _ => PyFloat (fold_left (SFadd prec emax) xs (S754_zero false))
  end.

(** Two winners, and the page of the second is missing. *)
Definition site_missing_page : string -> result node :=
  site [(index_url,
         Tag "[document]" []
           [winner_table year_1927_28 "/wiki/Wings" "Wings";
            winner_table year_1939 "/wiki/Gone" "Gone with the Wind"]);
        ("http://en.wikipedia.org/wiki/Wings", infobox "Budget" "$2 million")].

(** Induction on a document: a property of every piece of text, and of
    every tag whose contents have it, holds of every node. *)
Fixpoint node_induction (P : node -> Prop)
    (text : forall s, P (NavigableString s))
    (tag : forall name attrs cs, Forall P cs -> P (Tag name attrs cs))
    (n : node) : P n :=
  match n with
  | NavigableString s => text s
  | Tag name attrs cs =>
      tag name attrs cs
        ((fix all (l : list node) : Forall P l :=
            match l with
            | [] => Forall_nil P
            | c :: l' => Forall_cons c (node_induction P text tag c) (all l')
            end) cs)
  end.

(** The header cells [get_budget] looks for. *)
Definition budget_headers (page : element) : list element :=
  List.filter (fun th => contains "Budget" (or_empty (find_text th)))
              (find_all page "th").

(** A page whose budget row has a header and nothing else. *)
Definition page_header_only : node :=
  Tag "[document]" []
    [Tag "table" [] [Tag "tr" [] [Tag "th" [] [NavigableString "Budget"]]]].

(** The markers of the small sites, as [find_all] hands them out. *)
Definition index_bigs : list element :=
  find_all
    (Element (Tag "[document]" []
                [winner_table year_1927_28 "/wiki/Wings" "Wings";
                 winner_table year_1939 "/wiki/Gone" "Gone with the Wind"]) [])
    "big".

(** Two winners with a budget each: two million dollars, and a million
    dollars and one. *)
Definition site_two_budgets : string -> result node :=
  site [(index_url,
         Tag "[document]" []
           [winner_table year_1927_28 "/wiki/Wings" "Wings";
            winner_table year_1939 "/wiki/Gone" "Gone with the Wind"]);
        ("http://en.wikipedia.org/wiki/Wings", infobox "Budget" "$2 million");
        ("http://en.wikipedia.org/wiki/Gone", infobox "Budget" "$1,000,001")].

(** A title of 56 characters, and a site whose one winner has it. *)
Definition long_title : string :=
  "The Lord of the Rings: The Return of the King (extended)".

Definition site_long_title : string -> result node :=
  site [(index_url,
         Tag "[document]" []
           [winner_table [NavigableString "2003"] "/wiki/Return" long_title]);
        ("http://en.wikipedia.org/wiki/Return", infobox "Budget" "$94 million")].

(** The characters of the number in a budget cell. *)
Definition cell_char (c : ascii) : bool :=
  is_digit c || Ascii.eqb c "," || Ascii.eqb c "-".

(** A numeral of [n] zeros. *)
Fixpoint zeros (n : nat) : string :=
  match n with
  | O => EmptyString
  | S n' => String "0" (zeros n')
  end.

(** ** Strings: searching, slicing, splitting *)

Lemma char_in_In c s : char_in c s = true <-> In c (list_ascii_of_string s).
Proof.
  induction s as [|a s IH]; simpl.
  - split; [discriminate | tauto].
  - rewrite orb_true_iff, IH, Ascii.eqb_eq. intuition congruence.
Qed.

Lemma prefix_char c a s :
  String.prefix (String c EmptyString) (String a s) = Ascii.eqb c a.
Proof.
  simpl. destruct (ascii_dec c a) as [->|n].
  - rewrite Ascii.eqb_refl. now destruct s.
  - symmetry. now apply Ascii.eqb_neq.
Qed.

Lemma find_from_absent c s i :
  char_in c s = false -> find_from (String c EmptyString) s i = -1.
Proof.
  revert i. induction s as [|a s IH]; intros i H.
  - reflexivity.
  - simpl in H. apply orb_false_iff in H as [Hc Hs].
    change (find_from (String c "") (String a s) i)
      with (if String.prefix (String c "") (String a s) then i
            else find_from (String c "") s (i + 1)).
    rewrite prefix_char, Hc. now apply IH.
Qed.

Lemma find_from_first c pre rest i :
  char_in c pre = false ->
  find_from (String c EmptyString) (pre ++ String c rest) i
  = i + Z.of_nat (String.length pre).
Proof.
  revert i. induction pre as [|a pre IH]; intros i H.
  - change (find_from (String c "") ("" ++ String c rest) i)
      with (if String.prefix (String c "") (String c rest) then i
            else find_from (String c "") rest (i + 1)).
    rewrite prefix_char, Ascii.eqb_refl. simpl. lia.
  - simpl in H. apply orb_false_iff in H as [Hc Hs].
    change (find_from (String c "") (String a pre ++ String c rest) i)
      with (if String.prefix (String c "") (String a (pre ++ String c rest))
            then i
            else find_from (String c "") (pre ++ String c rest) (i + 1)).
    rewrite prefix_char, Hc. rewrite IH by assumption.
    simpl String.length. lia.
Qed.

Lemma drop_app pre c rest :
  drop (S (String.length pre)) (pre ++ String c rest) = rest.
Proof. induction pre as [|a pre IH]; simpl; auto. Qed.

Lemma slice_after pre c rest :
  slice_from (Z.of_nat (String.length pre) + 1) (pre ++ String c rest) = rest.
Proof.
  unfold slice_from.
  destruct (Z.ltb_spec (Z.of_nat (String.length pre) + 1) 0) as [H|_]; [lia|].
  replace (Z.to_nat (Z.of_nat (String.length pre) + 1))
    with (S (String.length pre)) by lia.
  apply drop_app.
Qed.

Lemma append_nil_r (s : string) : s ++ "" = s.
Proof. induction s; simpl; congruence. Qed.

Lemma append_assoc (a b c : string) : (a ++ b) ++ c = a ++ (b ++ c).
Proof. induction a; simpl; congruence. Qed.

Lemma split_from_blank cur ws :
  all_chars isspace ws = true -> split_from cur ws = emit cur [].
Proof.
  revert cur. induction ws as [|c ws IH]; simpl; intros cur H.
  - reflexivity.
  - apply andb_true_iff in H as [Hc Hw]. rewrite Hc.
    now rewrite IH.
Qed.

Lemma split_from_token tok : forall cur rest,
  all_chars (fun c => negb (isspace c)) tok = true ->
  split_from cur (tok ++ rest) = split_from (cur ++ tok) rest.
Proof.
  induction tok as [|c tok IH]; simpl; intros cur rest H.
  - now rewrite append_nil_r.
  - apply andb_true_iff in H as [Hc Ht].
    apply negb_true_iff in Hc. rewrite Hc, IH by assumption.
    now rewrite append_assoc.
Qed.

Lemma split_from_head rest : forall c cur,
  exists w more, split_from (String c cur) rest = String c (cur ++ w) :: more.
Proof.
  induction rest as [|a rest IH]; simpl; intros c cur.
  - exists "", []. now rewrite append_nil_r.
  - destruct (isspace a).
    + exists "", (split_from "" rest). now rewrite append_nil_r.
    + destruct (IH c (cur ++ String a "")) as (w & more & E).
      exists (String a w), more. rewrite E, append_assoc. reflexivity.
Qed.

Lemma prefix_append p w : String.prefix p (p ++ w) = true.
Proof.
  induction p as [|a p IH]; simpl.
  - now destruct w.
  - destruct (ascii_dec a a); [assumption | congruence].
Qed.

Lemma prefix_spec p : forall s,
  String.prefix p s = true <-> exists rest, s = p ++ rest.
Proof.
  induction p as [|a p IH]; intros s.
  - split; [intros _; now exists s | intros _; now destruct s].
  - destruct s as [|b s]; simpl.
    + split; [discriminate | intros [rest H]; discriminate H].
    + destruct (ascii_dec a b) as [->|N].
      * rewrite IH. split; intros [rest H]; exists rest; congruence.
      * split; [discriminate | intros [rest H]; congruence].
Qed.

(** [find]: [-1] when [sub] occurs nowhere, and otherwise the index of an
    occurrence. *)
Lemma find_from_spec sub s : forall i,
  (find_from sub s i = -1 /\ forall pre post, s <> pre ++ sub ++ post)
  \/ (exists pre post, s = pre ++ sub ++ post
                       /\ find_from sub s i = i + Z.of_nat (String.length pre)).
Proof.
  induction s as [|a s IH]; intros i.
  - cbn [find_from]. destruct (String.prefix sub "") eqn:P.
    + right. apply prefix_spec in P as [rest P]. exists "", rest.
      split; [exact P | simpl; lia].
    + left. split; [reflexivity|]. intros pre post H.
      destruct pre; [|discriminate H].
      assert (String.prefix sub "" = true) by (apply prefix_spec; eauto).
      congruence.
  - cbn [find_from]. destruct (String.prefix sub (String a s)) eqn:P.
    + right. apply prefix_spec in P as [rest P]. exists "", rest.
      split; [exact P | simpl; lia].
    + destruct (IH (i + 1)) as [[E N]|(pre & post & E & F)].
      * left. split; [exact E|]. intros pre post H.
        destruct pre as [|b pre].
        -- assert (String.prefix sub (String a s) = true)
             by (apply prefix_spec; eauto).
           congruence.
        -- injection H as _ H. exact (N pre post H).
      * right. exists (String a pre), post. split.
        -- simpl. now rewrite E.
        -- rewrite F. cbn [String.length]. lia.
Qed.

(** [sub in s] says that [s] has [sub] somewhere inside. *)
Lemma contains_spec sub s :
  contains sub s = true <-> exists pre post, s = pre ++ sub ++ post.
Proof.
  unfold contains, Py.find.
  destruct (find_from_spec sub s 0) as [[E N]|(pre & post & E & F)].
  - rewrite E. simpl. split; [discriminate|].
    intros (pre & post & H). now destruct (N pre post).
  - rewrite F. split; [eauto|]. intros _.
    apply negb_true_iff, Z.eqb_neq. lia.
Qed.

(** ** The builtins on examples *)

Example split_ex : split "  2 million  (est.) " = ["2"; "million"; "(est.)"].
Proof. reflexivity. Qed.

Example split_blank_ex : split (String "009" (String "010" " ")) = [].
Proof. reflexivity. Qed.

Example find_ex : Py.find "US$1.5" "$" = 2 /\ Py.find "unknown" "$" = -1.
Proof. split; reflexivity. Qed.

Example float_ex :
  float "0.1" = Ok (S754_finite false 7205759403792794 (-56))
  /\ float "1." = float "1" /\ float ".5" = float "0.5"
  /\ float "" = Raise ValueError /\ float "." = Raise ValueError
  /\ float "1.2.3" = Raise ValueError.
Proof. repeat split; vm_compute; reflexivity. Qed.

Example round_ex :
  (x <- float "0.5" ;; round x) = Ok 0
  /\ (x <- float "1.5" ;; round x) = Ok 2
  /\ (x <- float "2.5" ;; round x) = Ok 2
  /\ (x <- float "1234567.49" ;; round x) = Ok 1234567.
Proof. repeat split; vm_compute; reflexivity. Qed.

Example format_comma_ex :
  format_comma 0 = "0" /\ format_comma 999 = "999"
  /\ format_comma 1000 = "1,000" /\ format_comma (-1234567) = "-1,234,567".
Proof. repeat split; vm_compute; reflexivity. Qed.

Example rjust_ex : rjust 12 "-" = "           -" /\ rjust 2 "abc" = "abc".
Proof. split; reflexivity. Qed.

Example ljust_ex : ljust 8 "1927/28" = "1927/28 " /\ ljust 2 "abc" = "abc".
Proof. split; reflexivity. Qed.

Example main_ex :
  main site_one_budget example_base ""
  = (Ok tt,
     "1927/28  Wings                                              $    2,000,000"
     ++ String "010"
     "1939     Gone with the Wind                                 $            -"
     ++ String "010" "----"
     ++ String "010" "Average: $ 2,000,000"
     ++ String "010" "").
Proof. vm_compute. reflexivity. Qed.

(** ** Decimal numerals *)

Lemma keep_spec c : keep c = is_digit c || Ascii.eqb c ".".
Proof.
  destruct c as [[] [] [] [] [] [] [] []]; reflexivity.
Qed.

Lemma digit_not_point c : is_digit c = true -> Ascii.eqb c "." = false.
Proof.
  destruct c as [[] [] [] [] [] [] [] []]; vm_compute; congruence.
Qed.

Lemma has_digit_cons c s : has_digit (String c s) = is_digit c || has_digit s.
Proof.
  unfold has_digit. simpl. now rewrite negb_andb, negb_involutive.
Qed.

Lemma fold_step l : forall m,
  fold_left step l m = m * 10 ^ Z.of_nat (List.length l) + fold_left step l 0.
Proof.
  induction l as [|d l IH]; intros m.
  - simpl. lia.
  - cbn [fold_left List.length]. rewrite IH, (IH (step 0 d)).
    rewrite Nat2Z.inj_succ, Z.pow_succ_r by lia. unfold step. ring.
Qed.

(** A run of digits and commas in front of [rest]: the scanner takes the
    digits in and goes on with [rest]. *)
Lemma scan_decimal_run a : forall rest dot any m k,
  all_chars (fun c => is_digit c || Ascii.eqb c ",") a = true ->
  scan_decimal (filter keep a ++ rest) dot any m k
  = scan_decimal rest dot (any || has_digit a)
      (fold_left step (digits_of a) m)
      (if dot then k + Z.of_nat (List.length (digits_of a)) else k).
Proof.
  induction a as [|c a IH]; intros rest dot any m k H.
  - simpl. rewrite orb_false_r. destruct dot; f_equal; lia.
  - simpl in H. apply andb_true_iff in H as [Hc Ha].
    rewrite has_digit_cons. cbn [filter digits_of].
    rewrite keep_spec.
    destruct (is_digit c) eqn:D.
    + cbn [orb append scan_decimal]. rewrite D, IH by assumption.
      rewrite orb_true_r. cbn [fold_left List.length]. unfold step at 2.
      destruct dot; f_equal; lia.
    + simpl in Hc. apply Ascii.eqb_eq in Hc. subst c.
      cbn [orb Ascii.eqb Bool.eqb]. now rewrite IH.
Qed.

Lemma no_point_run s :
  all_chars (fun c => is_digit c || Ascii.eqb c "," || Ascii.eqb c ".") s = true ->
  count_char "." s = O ->
  all_chars (fun c => is_digit c || Ascii.eqb c ",") s = true.
Proof.
  induction s as [|c s IH]; simpl; intros H N.
  - reflexivity.
  - apply andb_true_iff in H as [Hc Hs].
    destruct (Ascii.eqb c ".") eqn:P; [discriminate|].
    rewrite orb_false_r in Hc. rewrite Hc. now apply IH.
Qed.

(** The scanner on a whole token, before any point has been met. *)
Lemma scan_decimal_token tok : forall any m,
  all_chars (fun c => is_digit c || Ascii.eqb c "," || Ascii.eqb c ".") tok = true ->
  (count_char "." tok <= 1)%nat ->
  scan_decimal (filter keep tok) false any m 0
  = if any || has_digit tok
    then Some (fold_left step (digits_of (after_point tok))
                 (fold_left step (digits_of (before_point tok)) m),
               Z.of_nat (List.length (digits_of (after_point tok))))
    else None.
Proof.
  induction tok as [|c tok IH]; intros any m H N.
  - simpl. now rewrite orb_false_r.
  - simpl in H, N. apply andb_true_iff in H as [Hc Ht].
    rewrite has_digit_cons. cbn [filter before_point after_point].
    rewrite keep_spec.
    destruct (is_digit c) eqn:D.
    + rewrite (digit_not_point c D) in *.
      cbn [orb scan_decimal digits_of]. rewrite D, IH by (assumption || lia).
      now rewrite orb_true_r.
    + destruct (Ascii.eqb c ".") eqn:P.
      * cbn [orb scan_decimal]. rewrite D, P.
        rewrite <- (append_nil_r (filter keep tok)).
        rewrite scan_decimal_run by (apply no_point_run; [assumption | lia]).
        simpl. reflexivity.
      * rewrite orb_false_r in Hc. simpl in Hc.
        apply Ascii.eqb_eq in Hc. subst c.
        cbn [orb digits_of]. change (is_digit ",") with false.
        cbv iota. now apply IH.
Qed.

Lemma pow10_pos n : 0 < 10 ^ Z.of_nat n.
Proof. apply Z.pow_pos_nonneg; lia. Qed.

(** What [float] makes of the kept characters of a well-formed token. *)
Lemma float_token tok :
  well_formed_number tok = true ->
  float (filter keep tok) = Ok (nearest_double (number_value tok)).
Proof.
  unfold well_formed_number. intros H.
  apply andb_true_iff in H as [H D]. apply andb_true_iff in H as [H N].
  apply Nat.leb_le in N.
  unfold float. rewrite scan_decimal_token by assumption.
  rewrite D. cbn [orb]. f_equal.
  unfold nearest_double, number_value. cbn [Qplus Qnum Qden inject_Z].
  rewrite Pos.mul_1_l, Z2Pos.id by apply pow10_pos.
  f_equal. rewrite fold_step. unfold of_digits. fold step. simpl fold_left at 1. ring.
Qed.

Lemma scan_decimal_points s : forall (dot any : bool) m k,
  (2 <= count_char "." s + (if dot then 1 else 0))%nat ->
  scan_decimal s dot any m k = None.
Proof.
  induction s as [|c s IH]; intros dot any m k H.
  - simpl in H. destruct dot; lia.
  - cbn [scan_decimal count_char] in *.
    destruct (is_digit c) eqn:D.
    + rewrite (digit_not_point c D) in H. now apply IH.
    + destruct (Ascii.eqb c ".") eqn:P; [|reflexivity].
      destruct dot; [reflexivity|]. apply IH. lia.
Qed.

Lemma count_point_filter s :
  count_char "." (filter keep s) = count_char "." s.
Proof.
  induction s as [|c s IH]; simpl.
  - reflexivity.
  - rewrite keep_spec.
    destruct (is_digit c) eqn:D; simpl.
    + now rewrite IH.
    + destruct (Ascii.eqb c ".") eqn:P; simpl; rewrite ?P, IH; reflexivity.
Qed.

Lemma filter_app p a b : filter p (a ++ b) = filter p a ++ filter p b.
Proof.
  induction a as [|c a IH]; simpl.
  - reflexivity.
  - destruct (p c); simpl; now rewrite IH.
Qed.

Lemma filter_idem p s : filter p (filter p s) = filter p s.
Proof.
  induction s as [|c s IH]; simpl.
  - reflexivity.
  - destruct (p c) eqn:E; simpl; rewrite ?E, IH; reflexivity.
Qed.

Lemma parse_number_filter text : parse_number text = float (filter keep text).
Proof. reflexivity. Qed.

(** ** The parser past the dollar sign *)

Lemma parse_budget_dollar pre tail :
  char_in "$" pre = false ->
  parse_budget (pre ++ String "$" tail)
  = (value <- index (split tail) 0 ;;
     value <- parse_number value ;;
     if (1 <? Z.of_nat (List.length (split tail)))
        && match nth_error (split tail) 1 with
           | Some p => startswith p "million"
           | None => false
           end
     then v <- mul_int value 1000000 ;; Ok (Some v)
     else Ok (Some value)).
Proof.
  intros H. unfold parse_budget, Py.find.
  rewrite find_from_first by assumption.
  destruct (Z.eqb_spec (0 + Z.of_nat (String.length pre)) (-1)) as [E|_]; [lia|].
  rewrite Z.add_0_l, slice_after. reflexivity.
Qed.

Lemma number_char_not_space c :
  is_digit c || Ascii.eqb c "," || Ascii.eqb c "." = true ->
  negb (isspace c) = true.
Proof.
  destruct c as [[] [] [] [] [] [] [] []]; vm_compute; congruence.
Qed.

Lemma all_chars_impl (p q : ascii -> bool) s :
  (forall c, p c = true -> q c = true) ->
  all_chars p s = true -> all_chars q s = true.
Proof.
  intros I. induction s as [|c s IH]; simpl; intros H.
  - reflexivity.
  - apply andb_true_iff in H as [Hc Hs]. now rewrite (I c Hc), IH.
Qed.

Lemma well_formed_token tok :
  well_formed_number tok = true ->
  all_chars (fun c => negb (isspace c)) tok = true /\
  exists c t, tok = String c t.
Proof.
  unfold well_formed_number. intros H.
  apply andb_true_iff in H as [H D]. apply andb_true_iff in H as [H _].
  split.
  - revert H. apply all_chars_impl, number_char_not_space.
  - destruct tok as [|c t]; [discriminate | eauto].
Qed.

Lemma mul_million v : mul_int v 1000000 = Ok (SFmul prec emax v million).
Proof. reflexivity. Qed.

Lemma parse_budget_plain_ex :
  exists x, parse_budget "$1,234.5" = Ok (Some x) /\ represents x (12345 # 10).
Proof.
  eexists. split; [vm_compute; reflexivity|]. vm_compute. reflexivity.
Qed.

Lemma parse_budget_million_ex :
  exists x, parse_budget "$1.5 million" = Ok (Some x)
            /\ represents x (1500000 # 1).
Proof.
  eexists. split; [vm_compute; reflexivity|]. vm_compute. reflexivity.
Qed.

(** C1: a dollar sign and a well-formed number parse to the value of the
    number; when the token after the number starts with [million], to that
    value times 1,000,000 (the product of the two floats). *)
Theorem parse_budget_well_formed tok :
  well_formed_number tok = true ->
  let value := nearest_double (number_value tok) in
  parse_budget ("$" ++ tok) = Ok (Some value)
  /\ (forall rest,
        parse_budget ("$" ++ tok ++ " million" ++ rest)
        = Ok (Some (SFmul prec emax value million)))
  /\ (forall tail second more,
        split tail = tok :: second :: more ->
        startswith second "million" = true ->
        parse_budget ("$" ++ tail) = Ok (Some (SFmul prec emax value million)))
  /\ (exists x, parse_budget "$1,234.5" = Ok (Some x)
                /\ represents x (12345 # 10))
  /\ (exists x, parse_budget "$1.5 million" = Ok (Some x)
                /\ represents x (1500000 # 1)).
Proof.
  intros W value.
  destruct (well_formed_token tok W) as (NS & c & t & E).
  assert (F : parse_number tok = Ok value)
    by (rewrite parse_number_filter; now apply float_token).
  split; [|split; [|split; [|split]]].
  - change ("$" ++ tok) with ("" ++ String "$" tok).
    rewrite parse_budget_dollar by reflexivity.
    assert (S1 : split tok = [tok]).
    { unfold split. rewrite <- (append_nil_r tok) at 1.
      rewrite split_from_token by assumption. rewrite E. reflexivity. }
    rewrite S1. cbn [index nth_error bind]. rewrite F. reflexivity.
  - intros rest.
    change ("$" ++ tok ++ " million" ++ rest)
      with ("" ++ String "$" (tok ++ " million" ++ rest)).
    rewrite parse_budget_dollar by reflexivity.
    assert (S2 : exists w more,
               split (tok ++ " million" ++ rest) = tok :: ("million" ++ w) :: more).
    { unfold split. rewrite split_from_token by assumption.
      change ("" ++ tok) with tok. rewrite E.
      change (split_from (String c t) (" million" ++ rest))
        with (String c t :: split_from "" ("million" ++ rest)).
      rewrite (split_from_token "million") by reflexivity.
      destruct (split_from_head rest "m" "illion") as (w & more & Em).
      exists w, more. change ("" ++ "million") with (String "m" "illion").
      rewrite Em. reflexivity. }
    destruct S2 as (w & more & S2). rewrite S2.
    cbn [index nth_error bind List.length]. rewrite F.
    unfold startswith. rewrite prefix_append.
    replace (1 <? Z.of_nat (S (S (List.length more)))) with true
      by (symmetry; apply Z.ltb_lt; lia).
    cbn [andb bind]. now rewrite mul_million.
  - intros tail second more S3 M.
    change ("$" ++ tail) with ("" ++ String "$" tail).
    rewrite parse_budget_dollar by reflexivity.
    rewrite S3. cbn [index nth_error bind List.length]. rewrite F, M.
    replace (1 <? Z.of_nat (S (S (List.length more)))) with true
      by (symmetry; apply Z.ltb_lt; lia).
    cbn [andb bind]. now rewrite mul_million.
  - exact parse_budget_plain_ex.
  - exact parse_budget_million_ex.
Qed.

Lemma parse_budget_well_formed_witness :
  parse_budget "$1,500.25" = Ok (Some (nearest_double (number_value "1,500.25")))
  /\ parse_budget "$1.5 million (est.)"
     = Ok (Some (SFmul prec emax (nearest_double (number_value "1.5")) million))
  /\ parse_budget "$ 12  millions"
     = Ok (Some (SFmul prec emax (nearest_double (number_value "12")) million)).
Proof.
  split; [exact (proj1 (parse_budget_well_formed "1,500.25" eq_refl))|].
  split.
  - exact (proj1 (proj2 (parse_budget_well_formed "1.5" eq_refl)) " (est.)").
  - exact (proj1 (proj2 (proj2 (parse_budget_well_formed "12" eq_refl)))
             " 12  millions" "millions" [] eq_refl eq_refl).
Defined.

(** C2: a text without a dollar sign, the empty one included, parses to
    [None]. *)
Theorem parse_budget_no_dollar :
  (forall text, char_in "$" text = false -> parse_budget text = Ok None)
  /\ parse_budget "unknown" = Ok None
  /\ parse_budget "" = Ok None.
Proof.
  assert (G : forall text, char_in "$" text = false -> parse_budget text = Ok None).
  { intros text H. unfold parse_budget, Py.find.
    now rewrite find_from_absent. }
  split; [exact G | split; now apply G].
Qed.

Lemma parse_budget_no_dollar_witness :
  parse_budget "Budget: 2 million pounds" = Ok None.
Proof.
  exact (proj1 parse_budget_no_dollar "Budget: 2 million pounds" eq_refl).
Defined.

(** C9: when nothing but blanks follows the first dollar sign, the first
    token is missing and [parse_budget] raises [IndexError]; it does not
    return [None]. *)
Theorem parse_budget_bare_dollar :
  (forall pre ws,
     char_in "$" pre = false ->
     all_chars isspace ws = true ->
     parse_budget (pre ++ "$" ++ ws) = Raise IndexError
     /\ parse_budget (pre ++ "$" ++ ws) <> Ok None)
  /\ parse_budget "$" = Raise IndexError
  /\ parse_budget "$   " = Raise IndexError.
Proof.
  assert (G : forall pre ws,
             char_in "$" pre = false -> all_chars isspace ws = true ->
             parse_budget (pre ++ "$" ++ ws) = Raise IndexError).
  { intros pre ws P W. change ("$" ++ ws) with (String "$" ws).
    rewrite parse_budget_dollar by assumption.
    unfold split. rewrite split_from_blank by assumption. reflexivity. }
  split; [|split].
  - intros pre ws P W. rewrite G by assumption. split; [reflexivity | discriminate].
  - exact (G "" "" eq_refl eq_refl).
  - exact (G "" "   " eq_refl eq_refl).
Qed.

Lemma parse_budget_bare_dollar_witness :
  parse_budget "about $  " = Raise IndexError.
Proof.
  exact (proj1 (proj1 parse_budget_bare_dollar "about " "  " eq_refl eq_refl)).
Defined.

(** C3 as stated fails: the token with two points does raise. *)
Lemma parse_number_two_points_raises :
  parse_number "1.2.3" = Raise ValueError
  /\ ~ (exists x, parse_number "1.2.3" = Ok x).
Proof.
  split; [reflexivity|]. intros [x H]. discriminate H.
Qed.

(** C3, amended: [parse_number] does not look at how many points a token
    has, every digit and point goes on to [float] in the order met; but
    [float] refuses a numeral with two points or more, so [parse_number]
    raises [ValueError] on such a token. *)
Theorem parse_number_many_points text :
  (2 <= count_char "." text)%nat ->
  parse_number text = float (filter keep text)
  /\ count_char "." (filter keep text) = count_char "." text
  /\ parse_number text = Raise ValueError.
Proof.
  intros H. split; [reflexivity|]. split; [apply count_point_filter|].
  rewrite parse_number_filter. unfold float.
  rewrite scan_decimal_points; [reflexivity|].
  rewrite count_point_filter. lia.
Qed.

Lemma parse_number_many_points_witness :
  parse_number "1,0.2.3" = float "10.2.3"
  /\ count_char "." "10.2.3" = count_char "." "1,0.2.3"
  /\ parse_number "1,0.2.3" = Raise ValueError.
Proof.
  apply (parse_number_many_points "1,0.2.3"). simpl. lia.
Defined.

(** C6: a character that is neither a digit nor a point does not count,
    wherever it stands; ["1,234.5"] is 1234.5 and ["12"] is 12.0. *)
Theorem parse_number_strips :
  (forall a c b,
     char_in c "0123456789." = false ->
     parse_number (a ++ String c b) = parse_number (a ++ b))
  /\ (forall text, parse_number text = parse_number (filter keep text))
  /\ (exists x, parse_number "1,234.5" = Ok x /\ represents x (12345 # 10))
  /\ (exists x, parse_number "12" = Ok x /\ represents x (12 # 1)).
Proof.
  split; [|split; [|split]].
  - intros a c b H. rewrite !parse_number_filter, !filter_app.
    cbn [filter]. unfold keep at 2. now rewrite H.
  - intros text. rewrite !parse_number_filter. now rewrite filter_idem.
  - eexists. split; [vm_compute; reflexivity|]. vm_compute. reflexivity.
  - eexists. split; [vm_compute; reflexivity|]. vm_compute. reflexivity.
Qed.

Lemma parse_number_strips_witness :
  parse_number "US 1,234.5" = parse_number "US 1234.5".
Proof.
  exact (proj1 parse_number_strips "US 1" ","%char "234.5" eq_refl).
Defined.

(** C4 as stated fails: the string is 14 characters long, not 18. *)
Lemma format_budget_not_18_wide :
  format_budget (Some (PyInt 1234567)) <> Ok "$        1,234,567".
Proof. vm_compute. discriminate. Qed.

(** C4, amended: [format_budget(1234567)] is ["$    1,234,567"], 14
    characters in all: the prefix ["$ "] and the grouped integer, without
    decimals, flushed right in the 12 columns left; [format_budget(None)]
    is the prefix and a dash flushed right in the same 12 columns. *)
Theorem format_budget_examples :
  format_budget (Some (PyInt 1234567)) = Ok "$    1,234,567"
  /\ "$    1,234,567" = "$ " ++ rjust 12 "1,234,567"
  /\ String.length "$    1,234,567" = 14%nat
  /\ (exists x, float "1234567" = Ok x
                /\ format_budget (Some (PyFloat x)) = Ok "$    1,234,567")
  /\ format_budget None = Ok "$            -"
  /\ "$            -" = "$ " ++ rjust 12 "-"
  /\ String.length "$            -" = 14%nat.
Proof.
  repeat split.
  eexists. split; vm_compute; reflexivity.
Qed.

(** ** The year of a marker *)

Lemma join_empty l : join "" l = fold_right append "" l.
Proof.
  induction l as [|x l IH].
  - reflexivity.
  - cbn [fold_right]. rewrite <- IH. destruct l; simpl.
    + now rewrite append_nil_r.
    + reflexivity.
Qed.

Lemma more_than_one {A} (a b : A) l :
  (1 <? Z.of_nat (List.length (a :: b :: l))) = true.
Proof. apply Z.ltb_lt. cbn [List.length]. lia. Qed.

(** C5: when the second fragment of a marker is a slash, [get_year] joins
    the first three fragments; otherwise it returns the first fragment. So
    [["1939"]] gives ["1939"] and [["1927"; "/"; "28"; "[A]"]] gives
    ["1927/28"], without the footnote. A marker without any text has no
    first fragment to return: [texts[0]] raises [IndexError]. *)
Theorem get_year_fragments :
  (forall big,
     let texts := find_all_text big in
     (nth_error texts 1 = Some "/" ->
      get_year big = Ok (fold_right append "" (firstn 3 texts)))
     /\ (nth_error texts 1 <> Some "/" ->
         forall first, nth_error texts 0 = Some first ->
         get_year big = Ok first))
  /\ (forall big, find_all_text big = ["1939"] -> get_year big = Ok "1939")
  /\ (forall big, find_all_text big = ["1927"; "/"; "28"; "[A]"] ->
      get_year big = Ok "1927/28")
  /\ (forall big, find_all_text big = [] -> get_year big = Raise IndexError).
Proof.
  split; [|split; [|split]].
  - intros big texts. unfold get_year. fold texts.
    destruct texts as [|a [|b l]].
    + split; [discriminate|]. intros _ first H. discriminate H.
    + split; [discriminate|]. intros _ first H. injection H as <-. reflexivity.
    + rewrite more_than_one. cbn [nth_error andb]. split.
      * intros H. injection H as ->. cbn [String.eqb Ascii.eqb Bool.eqb].
        now rewrite join_empty.
      * intros N first H. injection H as <-.
        destruct (String.eqb_spec b "/") as [->|_]; [congruence|].
        reflexivity.
  - intros big H. unfold get_year. rewrite H. reflexivity.
  - intros big H. unfold get_year. rewrite H. reflexivity.
  - intros big H. unfold get_year. rewrite H. reflexivity.
Qed.

Lemma get_year_fragments_witness :
  get_year big_1927_28
  = Ok (fold_right append "" (firstn 3 (find_all_text big_1927_28)))
  /\ get_year big_1927_28 = Ok "1927/28"
  /\ get_year big_1939 = Ok "1939"
  /\ get_year (Element (Tag "big" [] [NavigableString "1941"; Tag "sup" [] [NavigableString "[B]"]]) [])
     = Ok "1941".
Proof.
  split; [|split; [|split]].
  - exact (proj1 (proj1 get_year_fragments big_1927_28) eq_refl).
  - exact (proj1 (proj2 (proj2 get_year_fragments)) big_1927_28 eq_refl).
  - exact (proj1 (proj2 get_year_fragments) big_1939 eq_refl).
  - refine (proj2 (proj1 get_year_fragments
             (Element (Tag "big" [] [NavigableString "1941"; Tag "sup" [] [NavigableString "[B]"]]) []))
             _ "1941" eq_refl).
    simpl. discriminate.
Defined.

(** ** Rows without a budget *)

Lemma filter_none {A} (p : A -> bool) l :
  existsb p l = false -> List.filter p l = [].
Proof.
  induction l as [|x l IH]; simpl; intros H.
  - reflexivity.
  - apply orb_false_iff in H as [Hx Hl]. rewrite Hx. now apply IH.
Qed.

Lemma get_budget_no_header page :
  has_budget_header page = false -> get_budget page = Ok "".
Proof.
  intros H. unfold get_budget. now rewrite (filter_none _ _ H).
Qed.

Lemma format_budget_falsy budget :
  truth budget = false -> format_budget budget = Ok dash_cell.
Proof.
  destruct budget as [x|]; simpl; intros H.
  - unfold format_budget. now rewrite H.
  - reflexivity.
Qed.

Lemma tally_falsy budget st :
  truth (option_map PyFloat budget) = false -> tally budget st = Ok st.
Proof.
  intros H. destruct st as [count total]. unfold tally. now rewrite H.
Qed.

(** A winner whose budget is [None] or zero: the accumulators stay, the
    cell is the dash. *)
Lemma row_without_budget web base big st out year title link doc text budget :
  parse_big big = Ok (year, title, link) ->
  web (base ++ link) = Ok doc ->
  get_budget (Element doc []) = Ok text ->
  parse_budget text = Ok budget ->
  truth (option_map PyFloat budget) = false ->
  row web base big st out
  = (Ok st, out ++ report_line year title dash_cell ++ String "010" "").
Proof.
  intros B W G P T. unfold row, io_bind, lift, fetch.
  rewrite B, W. cbn [bind]. rewrite G. cbn [bind]. rewrite P.
  rewrite (tally_falsy _ _ T), (format_budget_falsy _ T).
  reflexivity.
Qed.

(** C7: on a page where no header cell has [Budget] in its label,
    [get_budget] returns the empty string without raising, the parser makes
    [None] of it, and the row of the report shows the dash flushed right. *)
Theorem get_budget_absent :
  (forall page,
     has_budget_header page = false ->
     get_budget page = Ok ""
     /\ (text <- get_budget page ;; parse_budget text) = Ok None)
  /\ format_budget None = Ok dash_cell
  /\ dash_cell = "$ " ++ rjust 12 "-"
  /\ (forall web base big st out year title link doc,
        parse_big big = Ok (year, title, link) ->
        web (base ++ link) = Ok doc ->
        has_budget_header (Element doc []) = false ->
        row web base big st out
        = (Ok st, out ++ report_line year title dash_cell ++ String "010" "")).
Proof.
  split; [|split; [|split]].
  - intros page H. rewrite (get_budget_no_header page H). split; reflexivity.
  - reflexivity.
  - reflexivity.
  - intros web base big st out year title link doc B W H.
    apply (row_without_budget web base big st out year title link doc "" None);
      try assumption; try reflexivity.
    now apply get_budget_no_header.
Qed.

Lemma get_budget_absent_witness :
  (get_budget (Element (infobox "Running time" "221 minutes") []) = Ok ""
   /\ (text <- get_budget (Element (infobox "Running time" "221 minutes") []) ;;
       parse_budget text) = Ok None)
  /\ row site_one_budget example_base big_1939
       (1, PyFloat million) "rows so far"
     = (Ok (1, PyFloat million),
        "rows so far" ++ report_line "1939" "Gone with the Wind" dash_cell
          ++ String "010" "").
Proof.
  split.
  - exact (proj1 get_budget_absent
             (Element (infobox "Running time" "221 minutes") []) eq_refl).
  - exact (proj2 (proj2 (proj2 get_budget_absent))
             site_one_budget example_base big_1939
             (1, PyFloat million) "rows so far"
             "1939" "Gone with the Wind" "/wiki/Gone"
             (infobox "Running time" "221 minutes") eq_refl eq_refl eq_refl).
Defined.

(** C10: a budget of zero is a budget that is not there. [format_budget]
    shows the dash for it, and the loop leaves [count] and [total] as they
    were, exactly as for [None]. *)
Theorem zero_budget_as_absent :
  parse_budget "$0" = Ok (Some (S754_zero false))
  /\ (forall s,
        format_budget (Some (PyFloat (S754_zero s))) = Ok dash_cell
        /\ format_budget (Some (PyFloat (S754_zero s))) = format_budget None
        /\ format_budget (Some (PyFloat (S754_zero s))) <> Ok "$            0")
  /\ (forall s st,
        tally (Some (S754_zero s)) st = Ok st
        /\ tally (Some (S754_zero s)) st = tally None st)
  /\ (forall web base big st out year title link doc text s,
        parse_big big = Ok (year, title, link) ->
        web (base ++ link) = Ok doc ->
        get_budget (Element doc []) = Ok text ->
        parse_budget text = Ok (Some (S754_zero s)) ->
        row web base big st out
        = (Ok st, out ++ report_line year title dash_cell ++ String "010" "")).
Proof.
  split; [|split; [|split]].
  - vm_compute. reflexivity.
  - intros s. split; [reflexivity|]. split; [reflexivity|].
    unfold dash_cell. simpl. discriminate.
  - intros s [count total]. split; reflexivity.
  - intros web base big st out year title link doc text s B W G P.
    now apply (row_without_budget web base big st out year title link doc
                 text (Some (S754_zero s))).
Qed.

Lemma zero_budget_as_absent_witness :
  row site_no_budget example_base big_1927_28 (0, PyInt 0) ""
  = (Ok (0, PyInt 0),
     "" ++ report_line "1927/28" "Wings" dash_cell ++ String "010" "").
Proof.
  exact (proj2 (proj2 (proj2 zero_budget_as_absent))
           site_no_budget example_base big_1927_28 (0, PyInt 0) ""
           "1927/28" "Wings" "/wiki/Wings" (infobox "Budget" "$0")
           "$0 [1]" false eq_refl eq_refl eq_refl eq_refl).
Defined.

(** ** Counts as floats *)

Lemma digits2_pos_iter p k :
  digits2_pos (Pos.iter xO p k) = (digits2_pos p + k)%positive.
Proof.
  induction k as [|k IH] using Pos.peano_ind.
  - simpl. now rewrite Pos.add_1_r.
  - rewrite Pos.iter_succ. cbn [digits2_pos]. rewrite IH.
    now rewrite Pos.add_succ_r.
Qed.

Lemma iter_xO_value p k : Zpos (Pos.iter xO p k) = Zpos p * 2 ^ Zpos k.
Proof.
  induction k as [|k IH] using Pos.peano_ind.
  - simpl. lia.
  - rewrite Pos.iter_succ, Pos2Z.inj_xO, IH, Pos2Z.inj_succ.
    rewrite Z.pow_succ_r by lia. ring.
Qed.

Lemma digits2_pos_low p : 2 ^ (Zpos (digits2_pos p) - 1) <= Zpos p.
Proof.
  induction p as [p IH|p IH|]; cbn [digits2_pos].
  - rewrite Pos2Z.inj_succ.
    replace (Z.succ (Zpos (digits2_pos p)) - 1)
      with (Z.succ (Zpos (digits2_pos p) - 1)) by lia.
    rewrite Z.pow_succ_r by lia. lia.
  - rewrite Pos2Z.inj_succ.
    replace (Z.succ (Zpos (digits2_pos p)) - 1)
      with (Z.succ (Zpos (digits2_pos p) - 1)) by lia.
    rewrite Z.pow_succ_r by lia. lia.
  - simpl. lia.
Qed.

Lemma digits2_pos_small p : Zpos p < 2 ^ 53 -> Zpos (digits2_pos p) <= 53.
Proof.
  intros H. destruct (Z.le_gt_cases (Zpos (digits2_pos p)) 53) as [L|G]; [assumption|].
  pose proof (digits2_pos_low p) as Low.
  assert (2 ^ 53 <= 2 ^ (Zpos (digits2_pos p) - 1))
    by (apply Z.pow_le_mono_r; lia).
  lia.
Qed.

(** A mantissa of 53 bits with a small exponent is a float as it stands. *)
Lemma binary_round_aux_exact m e :
  digits2_pos m = 53%positive -> -52 <= e <= 0 ->
  binary_round_aux prec emax false (Zpos m) e loc_Exact = S754_finite false m e.
Proof.
  intros D E.
  assert (F : fexp prec emax (Zpos 53 + e) - e = 0).
  { unfold fexp, emin, prec, emax. lia. }
  unfold binary_round_aux, shr_fexp. cbn [Zdigits2 shr_record_of_loc].
  rewrite D, F. cbn [shr shr_m loc_of_shr_record round_nearest_even Zdigits2].
  rewrite D, F. cbn [shr shr_m].
  replace (e <=? emax - prec) with true; [reflexivity|].
  symmetry. apply Z.leb_le. unfold emax, prec. lia.
Qed.

(** A count below [2^53] is a float of exactly that value. *)
Lemma float_of_int_small count :
  0 < count < 2 ^ 53 ->
  exists m e, float_of_int count = Ok (S754_finite false m e)
              /\ e <= 0 /\ Zpos m = count * 2 ^ (- e).
Proof.
  intros [P B]. destruct count as [|p|p]; try lia.
  pose proof (digits2_pos_small p B) as D.
  unfold float_of_int, binary_normalize, binary_round.
  assert (F : fexp prec emax (Zpos (digits2_pos p) + 0) = Zpos (digits2_pos p) - 53).
  { unfold fexp, emin, prec, emax. lia. }
  rewrite F. unfold shl_align.
  destruct (Zpos (digits2_pos p) - 53 - 0) as [|k|k] eqn:K; try lia.
  - exists p, 0. rewrite binary_round_aux_exact by (lia || (apply Pos2Z.inj; lia)).
    repeat split; simpl; lia.
  - exists (Pos.iter xO p k), (Zpos (digits2_pos p) - 53).
    rewrite binary_round_aux_exact.
    + repeat split; [lia|]. rewrite iter_xO_value. f_equal. f_equal. lia.
    + rewrite digits2_pos_iter. apply Pos2Z.inj. rewrite Pos2Z.inj_add. lia.
    + lia.
Qed.

Lemma float_of_int_represents count m e :
  e <= 0 -> Zpos m = count * 2 ^ (- e) ->
  represents (S754_finite false m e) (inject_Z count).
Proof.
  intros E V. unfold represents, exact_value.
  destruct (Z.leb_spec 0 e) as [L|L].
  - assert (e = 0) by lia. subst e.
    change (2 ^ (- 0)) with 1 in V. change (2 ^ 0) with 1.
    unfold Qeq, inject_Z. cbn [Qnum Qden]. lia.
  - unfold Qeq, inject_Z. cbn [Qnum Qden].
    rewrite Z2Pos.id by (apply Z.pow_pos_nonneg; lia). lia.
Qed.

(** ** The loop and the average *)

Lemma tally_keeps budget st st' :
  tallied st -> tally budget st = Ok st' -> tallied st'.
Proof.
  destruct st as [count total], st' as [count' total'].
  unfold tally, tallied. intros I H.
  destruct (truth (option_map PyFloat budget)).
  - destruct budget as [b|].
    + assert (C : 0 <= count) by (destruct I as [[-> _]|[C _]]; lia).
      destruct total as [z|t]; cbn [add_float bind] in H.
      * destruct (float_of_int z); cbn [bind] in H; [|discriminate].
        injection H as <- <-. right. split; [lia | eauto].
      * injection H as <- <-. right. split; [lia | eauto].
    + injection H as <- <-. exact I.
  - injection H as <- <-. exact I.
Qed.

Lemma row_keeps web base big st out st' out' :
  tallied st -> row web base big st out = (Ok st', out') -> tallied st'.
Proof.
  intros I. unfold row, io_bind, lift, print, ret.
  destruct (parse_big big) as [[[year title] link]|]; [|discriminate].
  destruct (fetch web base link) as [page|]; [|discriminate].
  destruct (bind (get_budget page) _) as [budget|]; [|discriminate].
  destruct (tally budget st) as [st1|] eqn:T; [|discriminate].
  destruct (format_budget _) as [cell|]; [|discriminate].
  intros H. injection H as <- _. exact (tally_keeps _ _ _ I T).
Qed.

Lemma for_each_keeps web base bigs : forall st out st' out',
  tallied st -> for_each bigs (row web base) st out = (Ok st', out') ->
  tallied st'.
Proof.
  induction bigs as [|big bigs IH]; intros st out st' out' I H.
  - cbn in H. injection H as <- _. exact I.
  - cbn [for_each] in H. unfold io_bind in H.
    destruct (row web base big st out) as [[st1|] out1] eqn:R; [|discriminate].
    exact (IH _ _ _ _ (row_keeps _ _ _ _ _ _ _ I R) H).
Qed.

Lemma rows_keep web base out st' out' :
  rows web base out = (Ok st', out') -> tallied st'.
Proof.
  unfold rows, io_bind, lift.
  destruct (fetch web base _) as [soup|]; [|discriminate].
  apply for_each_keeps. left. split; reflexivity.
Qed.

Lemma truediv_by_zero total : truediv_int total 0 = Raise ZeroDivisionError.
Proof. destruct total; reflexivity. Qed.

(** ** The outcomes of the parser *)

Lemma filter_keep_chars s :
  all_chars (fun c => is_digit c || Ascii.eqb c "," || Ascii.eqb c ".")
            (filter keep s) = true.
Proof.
  induction s as [|c s IH]; simpl.
  - reflexivity.
  - destruct (keep c) eqn:K; [|assumption].
    simpl. rewrite IH, andb_true_r. rewrite keep_spec in K.
    destruct (is_digit c); simpl in *; [reflexivity|].
    rewrite K. apply orb_true_r.
Qed.

Lemma has_digit_filter s : has_digit (filter keep s) = has_digit s.
Proof.
  induction s as [|c s IH].
  - reflexivity.
  - cbn [filter]. rewrite keep_spec, has_digit_cons.
    destruct (is_digit c) eqn:D; cbn [orb].
    + now rewrite has_digit_cons, D.
    + destruct (Ascii.eqb c ".") eqn:P; [|assumption].
      now rewrite has_digit_cons, D.
Qed.

Lemma digits_of_filter s : digits_of (filter keep s) = digits_of s.
Proof.
  induction s as [|c s IH].
  - reflexivity.
  - cbn [filter digits_of]. rewrite keep_spec.
    destruct (is_digit c) eqn:D; cbn [orb digits_of].
    + now rewrite D, IH.
    + destruct (Ascii.eqb c "."); [|assumption].
      cbn [digits_of]. now rewrite D.
Qed.

Lemma before_point_filter s :
  digits_of (before_point (filter keep s)) = digits_of (before_point s).
Proof.
  induction s as [|c s IH].
  - reflexivity.
  - cbn [filter before_point]. rewrite keep_spec.
    destruct (Ascii.eqb c ".") eqn:P.
    + rewrite orb_true_r. cbn [before_point]. now rewrite P.
    + rewrite orb_false_r. destruct (is_digit c) eqn:D.
      * cbn [before_point]. rewrite P. cbn [digits_of]. now rewrite D, IH.
      * cbn [digits_of]. now rewrite D.
Qed.

Lemma after_point_filter s :
  digits_of (after_point (filter keep s)) = digits_of (after_point s).
Proof.
  induction s as [|c s IH].
  - reflexivity.
  - cbn [filter after_point]. rewrite keep_spec.
    destruct (Ascii.eqb c ".") eqn:P.
    + rewrite orb_true_r. cbn [after_point]. rewrite P. apply digits_of_filter.
    + rewrite orb_false_r. destruct (is_digit c) eqn:D.
      * cbn [after_point]. now rewrite P.
      * assumption.
Qed.

Lemma number_value_filter s : number_value (filter keep s) = number_value s.
Proof.
  unfold number_value. now rewrite before_point_filter, after_point_filter.
Qed.

Lemma scan_decimal_no_digit s : forall dot m k,
  has_digit s = false -> scan_decimal s dot false m k = None.
Proof.
  induction s as [|c s IH]; intros dot m k H.
  - reflexivity.
  - rewrite has_digit_cons in H. apply orb_false_iff in H as [D Hs].
    cbn [scan_decimal]. rewrite D.
    destruct (Ascii.eqb c "."); [|reflexivity].
    destruct dot; [reflexivity|]. now apply IH.
Qed.

(** [parse_number] in one equation. *)
Lemma parse_number_cases text :
  parse_number text
  = if valid_numeral text
    then Ok (nearest_double (number_value text))
    else Raise ValueError.
Proof.
  unfold valid_numeral. rewrite parse_number_filter.
  destruct (has_digit text) eqn:D; cbn [andb].
  - destruct (Nat.leb_spec (count_char "." text) 1) as [N|N].
    + transitivity (float (filter keep (filter keep text)));
        [now rewrite filter_idem|].
      rewrite <- number_value_filter. apply float_token.
      unfold well_formed_number.
      now rewrite filter_keep_chars, count_point_filter, has_digit_filter, D,
        (proj2 (Nat.leb_le _ _) N).
    + unfold float. rewrite scan_decimal_points; [reflexivity|].
      rewrite count_point_filter. lia.
  - unfold float. rewrite scan_decimal_no_digit; [reflexivity|].
    now rewrite has_digit_filter.
Qed.

(** X1: [parse_number] succeeds exactly on the texts with a digit at least
    and a point at most, whatever else they hold, and then returns the
    float nearest to the number the digits spell; on every other text it
    raises [ValueError] and nothing else. *)
Theorem parse_number_outcome text :
  ((exists x, parse_number text = Ok x) <-> valid_numeral text = true)
  /\ (forall x, parse_number text = Ok x ->
                x = nearest_double (number_value text))
  /\ (forall e, parse_number text = Raise e -> e = ValueError).
Proof.
  rewrite parse_number_cases. destruct (valid_numeral text).
  - split; [split; eauto|]. split.
    + intros x H. now injection H as <-.
    + intros e H. discriminate H.
  - split; [split; [intros [x H]; discriminate H | discriminate]|]. split.
    + intros x H. discriminate H.
    + intros e H. now injection H as <-.
Qed.

(** [parse_budget] past the first dollar sign, token by token. *)
Lemma parse_budget_tokens pre tail :
  char_in "$" pre = false ->
  parse_budget (pre ++ "$" ++ tail) = budget_of_tokens (split tail).
Proof.
  intros H. change ("$" ++ tail) with (String "$" tail).
  rewrite parse_budget_dollar by assumption.
  destruct (split tail) as [|tok more]; [reflexivity|].
  cbn [index nth_error bind budget_of_tokens].
  rewrite parse_number_cases.
  destruct (valid_numeral tok); [|reflexivity]. cbn [bind].
  destruct more as [|second more].
  - reflexivity.
  - rewrite more_than_one. cbn [nth_error andb].
    destruct (startswith second "million"); [|reflexivity].
    now rewrite mul_million.
Qed.

(** X2: whatever stands before the first dollar sign counts for nothing,
    and what follows it is read token by token: no token, [IndexError]; a
    first token that is no numeral, [ValueError]; otherwise its value, a
    million times when the second token starts with [million]. *)
Theorem parse_budget_outcome pre tail :
  char_in "$" pre = false ->
  parse_budget (pre ++ "$" ++ tail) = budget_of_tokens (split tail)
  /\ parse_budget (pre ++ "$" ++ tail) = parse_budget ("$" ++ tail).
Proof.
  intros H. split; [now apply parse_budget_tokens|].
  rewrite (parse_budget_tokens pre tail H). symmetry.
  exact (parse_budget_tokens "" tail eq_refl).
Qed.

Lemma parse_budget_outcome_witness :
  parse_budget ("Budget: US" ++ "$" ++ " 1.5  million (est.)")
  = budget_of_tokens ["1.5"; "million"; "(est.)"]
  /\ parse_budget ("Budget: US" ++ "$" ++ " 1.5  million (est.)")
     = parse_budget ("$" ++ " 1.5  million (est.)").
Proof.
  exact (parse_budget_outcome "Budget: US" " 1.5  million (est.)" eq_refl).
Defined.

Lemma char_in_first c s :
  char_in c s = true ->
  exists pre rest, s = pre ++ String c rest /\ char_in c pre = false.
Proof.
  induction s as [|a s IH]; simpl; intros H.
  - discriminate.
  - destruct (Ascii.eqb c a) eqn:E.
    + apply Ascii.eqb_eq in E. subst a. now exists "", s.
    + destruct (IH H) as (pre & rest & -> & P).
      exists (String a pre), rest. split; [reflexivity|].
      simpl. now rewrite E.
Qed.

Lemma budget_of_tokens_cases parts :
  (exists x, budget_of_tokens parts = Ok (Some x))
  \/ budget_of_tokens parts = Raise IndexError
  \/ budget_of_tokens parts = Raise ValueError.
Proof.
  destruct parts as [|tok more]; [now right; left|].
  cbn [budget_of_tokens]. destruct (valid_numeral tok); [|now right; right].
  left. destruct more as [|second more]; [eauto|].
  destruct (startswith second "million"); eauto.
Qed.

(** X3: [parse_budget] returns [None] exactly when the text has no dollar
    sign; and the only exceptions it raises are [IndexError] and
    [ValueError]. *)
Theorem parse_budget_none_iff text :
  (parse_budget text = Ok None <-> char_in "$" text = false)
  /\ (forall e, parse_budget text = Raise e -> e = IndexError \/ e = ValueError).
Proof.
  destruct (char_in "$" text) eqn:C.
  - destruct (char_in_first _ _ C) as (pre & rest & -> & P).
    change (String "$" rest) with ("$" ++ rest).
    rewrite (parse_budget_tokens pre rest P).
    destruct (budget_of_tokens_cases (split rest)) as [[x E]|[E|E]];
      rewrite E; (split; [split; discriminate|]); intros e H.
    + discriminate H.
    + injection H as <-. now left.
    + injection H as <-. now right.
  - assert (E : parse_budget text = Ok None).
    { unfold parse_budget, Py.find. now rewrite find_from_absent. }
    rewrite E. split; [tauto | discriminate].
Qed.

Lemma budget_of_tokens_firstn parts :
  budget_of_tokens parts = budget_of_tokens (firstn 2 parts).
Proof. destruct parts as [|a [|b l]]; reflexivity. Qed.

(** X4: only the first two tokens after the dollar sign count: two texts
    that agree on them parse alike, whatever trails. *)
Theorem parse_budget_two_tokens pre1 pre2 tail1 tail2 :
  char_in "$" pre1 = false -> char_in "$" pre2 = false ->
  firstn 2 (split tail1) = firstn 2 (split tail2) ->
  parse_budget (pre1 ++ "$" ++ tail1) = parse_budget (pre2 ++ "$" ++ tail2).
Proof.
  intros P1 P2 H.
  rewrite (parse_budget_tokens pre1 tail1 P1).
  rewrite (parse_budget_tokens pre2 tail2 P2).
  now rewrite (budget_of_tokens_firstn (split tail1)), H,
    <- budget_of_tokens_firstn.
Qed.

Lemma parse_budget_two_tokens_witness :
  parse_budget ("" ++ "$" ++ "3.9 million (equivalent to $70 million in 2020)")
  = parse_budget ("est. " ++ "$" ++ " 3.9   million").
Proof.
  exact (parse_budget_two_tokens "" "est. "
           "3.9 million (equivalent to $70 million in 2020)" " 3.9   million"
           eq_refl eq_refl eq_refl).
Defined.

Lemma split_single tail :
  all_chars (fun c => negb (isspace c)) tail = true ->
  tail <> "" -> split tail = [tail].
Proof.
  intros NS NE. unfold split. rewrite <- (append_nil_r tail) at 1.
  rewrite split_from_token by assumption.
  destruct tail; [congruence | reflexivity].
Qed.

(** X5: when no blank stands between the number and what follows, there
    is one token only: the characters that are neither digits nor points
    are dropped from it and the value is never scaled, even if the token
    ends in [million]. *)
Theorem parse_budget_one_token pre tail :
  char_in "$" pre = false ->
  all_chars (fun c => negb (isspace c)) tail = true ->
  tail <> "" ->
  parse_budget (pre ++ "$" ++ tail)
  = (value <- parse_number tail ;; Ok (Some value)).
Proof.
  intros P NS NE.
  rewrite (parse_budget_tokens pre tail P), split_single by assumption.
  cbn [budget_of_tokens]. rewrite parse_number_cases.
  now destruct (valid_numeral tail).
Qed.

Lemma parse_budget_one_token_witness :
  parse_budget ("" ++ "$" ++ "2million") = (value <- parse_number "2" ;; Ok (Some value))
  /\ parse_budget ("" ++ "$" ++ "1.5-2") = (value <- parse_number "1.52" ;; Ok (Some value)).
Proof.
  split.
  - refine (parse_budget_one_token "" "2million" eq_refl eq_refl _). discriminate.
  - refine (parse_budget_one_token "" "1.5-2" eq_refl eq_refl _). discriminate.
Defined.

Lemma split_from_leading ws : forall s,
  all_chars isspace ws = true ->
  split_from "" (ws ++ s) = split_from "" s.
Proof.
  induction ws as [|c ws IH]; simpl; intros s H.
  - reflexivity.
  - apply andb_true_iff in H as [Hc Hw]. rewrite Hc. now apply IH.
Qed.

(** X6: blanks between the dollar sign and the number are skipped. *)
Theorem parse_budget_leading_blanks pre ws tail :
  char_in "$" pre = false ->
  all_chars isspace ws = true ->
  parse_budget (pre ++ "$" ++ ws ++ tail) = parse_budget (pre ++ "$" ++ tail).
Proof.
  intros P W.
  rewrite (parse_budget_tokens pre (ws ++ tail) P).
  rewrite (parse_budget_tokens pre tail P).
  unfold split. now rewrite split_from_leading.
Qed.

Lemma parse_budget_leading_blanks_witness :
  parse_budget ("US" ++ "$" ++ "  " ++ "12 million")
  = parse_budget ("US" ++ "$" ++ "12 million").
Proof.
  exact (parse_budget_leading_blanks "US" "  " "12 million" eq_refl eq_refl).
Defined.

(** ** The sign of a parsed budget *)

Lemma shr_1_nonneg mrs : 0 <= shr_m mrs -> 0 <= shr_m (shr_1 mrs).
Proof.
  destruct mrs as [m r s]. cbn [shr_m]. intros H.
  destruct m as [|[p|p|]|p]; cbn; lia.
Qed.

Lemma iter_shr_1_nonneg p : forall mrs,
  0 <= shr_m mrs -> 0 <= shr_m (iter_pos shr_1 p mrs).
Proof.
  induction p as [p IH|p IH|]; intros mrs H; cbn [iter_pos].
  - apply IH, IH. now apply shr_1_nonneg.
  - now apply IH, IH.
  - now apply shr_1_nonneg.
Qed.

Lemma shr_record_of_loc_m m l : shr_m (shr_record_of_loc m l) = m.
Proof. destruct l as [|[]]; reflexivity. Qed.

Lemma shr_fexp_nonneg m e l :
  0 <= m -> 0 <= shr_m (fst (shr_fexp prec emax m e l)).
Proof.
  intros H. unfold shr_fexp, shr.
  destruct (fexp prec emax (Zdigits2 m + e) - e) as [|p|p]; cbn [fst].
  - now rewrite shr_record_of_loc_m.
  - apply iter_shr_1_nonneg. now rewrite shr_record_of_loc_m.
  - now rewrite shr_record_of_loc_m.
Qed.

Lemma round_nearest_even_nonneg m l : 0 <= m -> 0 <= round_nearest_even m l.
Proof.
  intros H. unfold round_nearest_even.
  destruct l as [|[]]; try lia. destruct (Z.even m); lia.
Qed.

(** Rounding a mantissa that is not negative never gives a NaN, and gives
    the sign it was told. *)
Lemma binary_round_aux_unsigned m e l :
  0 <= m -> unsigned_float (binary_round_aux prec emax false m e l) = true.
Proof.
  intros H. unfold binary_round_aux.
  pose proof (shr_fexp_nonneg m e l H) as H1.
  destruct (shr_fexp prec emax m e l) as [mrs1 e1]. cbn [fst] in H1.
  pose proof (shr_fexp_nonneg _ e1 loc_Exact
                (round_nearest_even_nonneg _ (loc_of_shr_record mrs1) H1)) as H2.
  destruct (shr_fexp prec emax (round_nearest_even (shr_m mrs1)
                                  (loc_of_shr_record mrs1)) e1 loc_Exact)
    as [mrs2 e2].
  cbn [fst] in H2.
  destruct (shr_m mrs2) as [|p|p]; [reflexivity | | lia].
  now destruct (e2 <=? emax - prec).
Qed.

Lemma float_of_ratio_unsigned n d :
  0 <= n -> 0 < d -> unsigned_float (float_of_ratio n d) = true.
Proof.
  intros N D. unfold float_of_ratio.
  destruct n as [|p|p]; [reflexivity | | lia].
  unfold SFdiv_core_binary.
  set (m' := match _ - _ - _ with Z0 => _ | Zpos _ => _ | Zneg _ => _ end).
  assert (M : 0 <= m').
  { subst m'. destruct (_ - _ - _); [lia | | lia].
    apply Z.shiftl_nonneg. lia. }
  pose proof (Z.div_pos m' d M D) as Q. unfold Z.div in Q.
  destruct (Z.div_eucl m' d) as [q r].
  now apply binary_round_aux_unsigned.
Qed.

Lemma digit_value_nonneg c : is_digit c = true -> 0 <= digit_value c.
Proof.
  destruct c as [[] [] [] [] [] [] [] []]; vm_compute; congruence.
Qed.

Lemma digits_of_nonneg s : Forall (fun d => 0 <= d) (digits_of s).
Proof.
  induction s as [|c s IH]; cbn [digits_of].
  - constructor.
  - destruct (is_digit c) eqn:D; [|assumption].
    constructor; [now apply digit_value_nonneg | assumption].
Qed.

Lemma fold_step_nonneg l : forall m,
  Forall (fun d => 0 <= d) l -> 0 <= m -> 0 <= fold_left step l m.
Proof.
  induction l as [|d l IH]; intros m F M; cbn [fold_left].
  - assumption.
  - inversion F; subst. apply IH; [assumption|]. unfold step. lia.
Qed.

Lemma number_value_nonneg text : 0 <= Qnum (number_value text).
Proof.
  unfold number_value, of_digits. cbn [Qplus Qnum Qden inject_Z].
  pose proof (fold_step_nonneg _ 0 (digits_of_nonneg (before_point text))
                (Z.le_refl 0)).
  pose proof (fold_step_nonneg _ 0 (digits_of_nonneg (after_point text))
                (Z.le_refl 0)).
  nia.
Qed.

Lemma million_finite : million = S754_finite false 8589934592000000 (-33).
Proof. vm_compute. reflexivity. Qed.

Lemma mul_million_unsigned x :
  unsigned_float x = true -> unsigned_float (SFmul prec emax x million) = true.
Proof.
  rewrite million_finite.
  destruct x as [[]|[]| |[] m e]; try discriminate; intros _; try reflexivity.
  cbn [SFmul xorb]. apply binary_round_aux_unsigned. lia.
Qed.

Lemma budget_of_tokens_unsigned parts x :
  budget_of_tokens parts = Ok (Some x) -> unsigned_float x = true.
Proof.
  assert (V : forall tok,
             unsigned_float (nearest_double (number_value tok)) = true).
  { intros tok. apply float_of_ratio_unsigned.
    - apply number_value_nonneg.
    - reflexivity. }
  destruct parts as [|tok more]; [discriminate|].
  cbn [budget_of_tokens]. destruct (valid_numeral tok); [|discriminate].
  destruct more as [|second more].
  - intros H. injection H as <-. apply V.
  - destruct (startswith second "million"); intros H; injection H as <-.
    + apply mul_million_unsigned, V.
    + apply V.
Qed.

Lemma parse_budget_some text x :
  parse_budget text = Ok (Some x) ->
  exists parts, budget_of_tokens parts = Ok (Some x).
Proof.
  destruct (char_in "$" text) eqn:C.
  - destruct (char_in_first _ _ C) as (pre & rest & -> & P).
    change (String "$" rest) with ("$" ++ rest).
    rewrite (parse_budget_tokens pre rest P). eauto.
  - unfold parse_budget, Py.find. rewrite find_from_absent by assumption.
    discriminate.
Qed.

(** X7: a budget that [parse_budget] returns is never negative and never
    a NaN: it is a zero, a positive number or the positive infinity. Signs
    in the text are dropped with the other characters. *)
Theorem parse_budget_unsigned text x :
  parse_budget text = Ok (Some x) -> unsigned_float x = true.
Proof.
  intros H. destruct (parse_budget_some text x H) as [parts E].
  exact (budget_of_tokens_unsigned parts x E).
Qed.

Lemma parse_budget_unsigned_witness :
  unsigned_float (S754_finite false 5629499534213120 (-52)) = true.
Proof.
  apply (parse_budget_unsigned "loss of $-1.25").
  vm_compute. reflexivity.
Defined.

(** ** The budget cell *)

Lemma length_append (a b : string) :
  String.length (a ++ b) = (String.length a + String.length b)%nat.
Proof. induction a; simpl; congruence. Qed.

Lemma length_spaces n : String.length (spaces n) = n.
Proof. induction n; simpl; congruence. Qed.

Lemma length_rjust w s : String.length (rjust w s) = Nat.max w (String.length s).
Proof. unfold rjust. rewrite length_append, length_spaces. lia. Qed.

Lemma length_ljust w s : String.length (ljust w s) = Nat.max w (String.length s).
Proof. unfold ljust. rewrite length_append, length_spaces. lia. Qed.

Lemma format_budget_cases budget :
  format_budget budget
  = (thin <- match budget with
             | Some x => if number_truth x
                         then n <- round_number x ;; Ok (format_comma n)
                         else Ok "-"
             | None => Ok "-"
             end ;;
     Ok ("$ " ++ rjust 12 thin)).
Proof. reflexivity. Qed.

Lemma round_unsigned x :
  unsigned_float x = true ->
  (exists z, round x = Ok z /\ 0 <= z)
  \/ (x = S754_infinity false /\ round x = Raise OverflowError).
Proof.
  destruct x as [[]|[]| |[] m e]; try discriminate; intros _.
  - left. exists 0. split; [reflexivity | lia].
  - now right.
  - left. cbn [round]. eexists. split; [reflexivity|].
    destruct (Z.leb_spec 0 e) as [E|E].
    + apply Z.mul_nonneg_nonneg; [lia|]. apply Z.pow_nonneg. lia.
    + unfold round_half_even.
      assert (P : 0 < 2 ^ (- e)) by (apply Z.pow_pos_nonneg; lia).
      pose proof (Z.div_pos (Zpos m) (2 ^ (- e)) ltac:(lia) P).
      destruct (2 * (Zpos m mod 2 ^ (- e)) ?= 2 ^ (- e)); try lia.
      destruct (Z.even (Zpos m / 2 ^ (- e))); lia.
Qed.

(** X9: the cell of a parsed budget. Whatever the text, formatting what
    [parse_budget] returned gives a cell, with one exception: a numeral
    beyond the range of the floats parses to the infinity, and then
    [format_budget] raises [OverflowError]. It never raises [ValueError]. *)
Theorem format_parsed_budget text budget :
  parse_budget text = Ok budget ->
  (exists cell, format_budget (option_map PyFloat budget) = Ok cell)
  \/ (budget = Some (S754_infinity false)
      /\ format_budget (option_map PyFloat budget) = Raise OverflowError).
Proof.
  intros H. rewrite format_budget_cases.
  destruct budget as [x|]; cbn [option_map number_truth round_number].
  - assert (U : unsigned_float x = true).
    { destruct (parse_budget_some text x H) as [parts E].
      exact (budget_of_tokens_unsigned parts x E). }
    destruct (round_unsigned x U) as [(z & R & _)|[-> R]].
    + left. destruct (float_truth x); rewrite ?R; cbn [bind]; eauto.
    + right. split; reflexivity.
  - left. cbn [bind]. eauto.
Qed.

Lemma format_parsed_budget_witness :
  ((exists cell, format_budget (option_map PyFloat (Some (S754_infinity false)))
                 = Ok cell)
   \/ (Some (S754_infinity false) = Some (S754_infinity false)
       /\ format_budget (option_map PyFloat (Some (S754_infinity false)))
          = Raise OverflowError))
  /\ ((exists cell, format_budget (option_map PyFloat None) = Ok cell)
      \/ (None = Some (S754_infinity false)
          /\ format_budget (option_map PyFloat None) = Raise OverflowError)).
Proof.
  split.
  - apply (format_parsed_budget ("$1" ++ zeros 309)). vm_compute. reflexivity.
  - apply (format_parsed_budget "not known"). reflexivity.
Defined.

(** ** From the cell back to the number *)

Lemma digits_of_app a b : digits_of (a ++ b) = (digits_of a ++ digits_of b)%list.
Proof.
  induction a as [|c a IH]; cbn [append digits_of].
  - reflexivity.
  - destruct (is_digit c); cbn [app]; now rewrite IH.
Qed.

Lemma string_of_list_app l1 l2 :
  string_of_list_ascii (l1 ++ l2)
  = string_of_list_ascii l1 ++ string_of_list_ascii l2.
Proof. induction l1 as [|c l1 IH]; simpl; congruence. Qed.

Lemma digits_of_rev l :
  digits_of (string_of_list_ascii (rev l))
  = rev (digits_of (string_of_list_ascii l)).
Proof.
  induction l as [|c l IH].
  - reflexivity.
  - cbn [rev]. rewrite string_of_list_app, digits_of_app, IH.
    cbn [string_of_list_ascii digits_of].
    destruct (is_digit c); cbn [rev]; [reflexivity | now rewrite app_nil_r].
Qed.

Lemma digits_of_commas l : forall n,
  digits_of (string_of_list_ascii (commas_rev l n))
  = digits_of (string_of_list_ascii l).
Proof.
  induction l as [|c l IH]; intros n.
  - reflexivity.
  - destruct n as [|n]; cbn [commas_rev string_of_list_ascii digits_of].
    + change (is_digit ",") with false. cbv iota. now rewrite IH.
    + now rewrite IH.
Qed.

Lemma digits_of_group s : digits_of (group_thousands s) = digits_of s.
Proof.
  unfold group_thousands.
  rewrite digits_of_rev, digits_of_commas, digits_of_rev, rev_involutive.
  now rewrite string_of_list_ascii_of_string.
Qed.

Lemma all_chars_app p a b : all_chars p (a ++ b) = all_chars p a && all_chars p b.
Proof.
  induction a as [|c a IH]; simpl.
  - reflexivity.
  - now rewrite IH, andb_assoc.
Qed.

Lemma all_chars_rev p l :
  all_chars p (string_of_list_ascii (rev l))
  = all_chars p (string_of_list_ascii l).
Proof.
  induction l as [|c l IH].
  - reflexivity.
  - cbn [rev]. rewrite string_of_list_app, all_chars_app, IH. simpl.
    rewrite andb_true_r. apply andb_comm.
Qed.

Lemma all_chars_commas p l : forall n,
  p ","%char = true ->
  all_chars p (string_of_list_ascii (commas_rev l n))
  = all_chars p (string_of_list_ascii l).
Proof.
  induction l as [|c l IH]; intros n C.
  - reflexivity.
  - destruct n as [|n]; simpl; rewrite ?C, IH by assumption; reflexivity.
Qed.

Lemma all_chars_group p s :
  p ","%char = true -> all_chars p (group_thousands s) = all_chars p s.
Proof.
  intros C. unfold group_thousands.
  rewrite all_chars_rev, all_chars_commas, all_chars_rev by assumption.
  now rewrite string_of_list_ascii_of_string.
Qed.

Ltac read_digit IH :=
  match goal with
  | |- fold_left step (digits_of (String ?c ?s)) ?a = Zpos ?r =>
      let v := eval vm_compute in (digit_value c) in
      change (digits_of (String c s)) with (v :: digits_of s);
      cbn [fold_left];
      match r with
      | Pos.of_uint_acc _ ?acc' =>
          replace (step a v) with (Zpos acc') by (unfold step; lia)
      end;
      apply IH
  end.

Lemma uint_digits_acc d : forall acc,
  fold_left step (digits_of (NilEmpty.string_of_uint d)) (Zpos acc)
  = Zpos (Pos.of_uint_acc d acc).
Proof.
  induction d as [|d IH|d IH|d IH|d IH|d IH|d IH|d IH|d IH|d IH|d IH];
    intros acc; [reflexivity|..];
    cbn [NilEmpty.string_of_uint Pos.of_uint_acc]; read_digit IH.
Qed.

Lemma uint_digits d :
  fold_left step (digits_of (NilEmpty.string_of_uint d)) 0
  = Z.of_N (Pos.of_uint d).
Proof.
  induction d as [|d IH|d IH|d IH|d IH|d IH|d IH|d IH|d IH|d IH|d IH];
    [reflexivity | exact IH | ..];
    cbn [NilEmpty.string_of_uint Pos.of_uint Z.of_N];
    read_digit uint_digits_acc.
Qed.

Lemma uint_all_digits d : all_chars is_digit (NilEmpty.string_of_uint d) = true.
Proof.
  induction d as [|d IH|d IH|d IH|d IH|d IH|d IH|d IH|d IH|d IH|d IH];
    [reflexivity|..]; cbn [NilEmpty.string_of_uint all_chars];
    rewrite IH; reflexivity.
Qed.

(** [str] of a natural number: digits only, one at least, and they spell
    the number. *)
Lemma str_of_nonneg_digits z :
  0 <= z ->
  of_digits (digits_of (str_of_nonneg z)) = z
  /\ all_chars is_digit (str_of_nonneg z) = true
  /\ str_of_nonneg z <> "".
Proof.
  intros H. unfold str_of_nonneg, NilZero.string_of_uint, of_digits.
  pose proof (DecimalN.Unsigned.of_to (Z.to_N z)) as E.
  unfold N.of_uint in E.
  destruct (N.to_uint (Z.to_N z)) as [|d|d|d|d|d|d|d|d|d|d] eqn:U.
  1: { change (Pos.of_uint Decimal.Nil) with 0%N in E.
       split; [change (0 = z); lia|]. split; [reflexivity | discriminate]. }
  all: split; [rewrite uint_digits, E; lia|];
       split; [apply uint_all_digits | discriminate].
Qed.

Lemma no_point_parts s :
  count_char "." s = O -> before_point s = s /\ after_point s = "".
Proof.
  induction s as [|c s IH]; simpl; intros H.
  - now split.
  - destruct (Ascii.eqb c "."); [discriminate|].
    destruct (IH H) as [B A]. now rewrite B, A.
Qed.

Lemma has_digit_app a b : has_digit (a ++ b) = has_digit a || has_digit b.
Proof.
  unfold has_digit. now rewrite all_chars_app, negb_andb.
Qed.

Lemma has_digit_all s : all_chars is_digit s = true -> s <> "" -> has_digit s = true.
Proof.
  destruct s as [|c s]; [congruence|]. simpl. intros H _.
  apply andb_true_iff in H as [D _]. rewrite has_digit_cons, D. reflexivity.
Qed.

Lemma has_digit_group s : has_digit (group_thousands s) = has_digit s.
Proof.
  unfold has_digit. f_equal.
  now apply (all_chars_group (fun c => negb (is_digit c))).
Qed.

Lemma cell_char_plain c :
  cell_char c = true -> Ascii.eqb c "." = false /\ negb (isspace c) = true.
Proof.
  destruct c as [[] [] [] [] [] [] [] []]; vm_compute; intuition congruence.
Qed.

Lemma all_chars_no_point s :
  all_chars cell_char s = true -> count_char "." s = O.
Proof.
  induction s as [|c s IH]; simpl; intros H.
  - reflexivity.
  - apply andb_true_iff in H as [Hc Hs].
    now rewrite (proj1 (cell_char_plain c Hc)), IH.
Qed.

(** The number [format_comma] writes, as the parser will take it. *)
Lemma format_comma_token z :
  all_chars cell_char (format_comma z) = true
  /\ has_digit (format_comma z) = true
  /\ of_digits (digits_of (format_comma z)) = Z.abs z.
Proof.
  destruct (str_of_nonneg_digits (Z.abs z) (Z.abs_nonneg z)) as (V & D & NE).
  unfold format_comma. split; [|split].
  - rewrite all_chars_app, all_chars_group by reflexivity.
    rewrite (all_chars_impl is_digit cell_char _
               (fun c H => eq_trans (f_equal (fun b => b || _ || _) H) eq_refl) D).
    now destruct (z <? 0).
  - rewrite has_digit_app, has_digit_group, (has_digit_all _ D NE).
    apply orb_true_r.
  - rewrite digits_of_app, digits_of_group.
    now destruct (z <? 0).
Qed.

Lemma all_spaces n : all_chars isspace (spaces n) = true.
Proof. induction n; simpl; auto. Qed.

Lemma number_value_whole s :
  count_char "." s = O ->
  nearest_double (number_value s)
  = nearest_double (inject_Z (of_digits (digits_of s))).
Proof.
  intros H. destruct (no_point_parts s H) as [B A].
  unfold nearest_double, number_value. rewrite B, A.
  cbn [digits_of List.length Qplus Qnum Qden inject_Z].
  change (of_digits []) with 0. change (Z.to_pos (10 ^ Z.of_nat 0)) with 1%positive.
  f_equal. lia.
Qed.

(** The cell of a number, read back. *)
Lemma parse_cell z :
  parse_budget ("$ " ++ rjust 12 (format_comma z))
  = Ok (Some (nearest_double (inject_Z (Z.abs z)))).
Proof.
  destruct (format_comma_token z) as (C & D & V).
  pose proof (all_chars_no_point _ C) as P.
  assert (NS : all_chars (fun c => negb (isspace c)) (format_comma z) = true).
  { revert C. apply all_chars_impl. intros c H. apply (cell_char_plain c H). }
  assert (NE : format_comma z <> "").
  { intros E. rewrite E in D. discriminate D. }
  change ("$ " ++ rjust 12 (format_comma z))
    with ("" ++ "$" ++ (String " " (spaces (12 - String.length (format_comma z)))
                        ++ format_comma z)).
  rewrite parse_budget_tokens by reflexivity.
  unfold split at 1. rewrite split_from_leading by apply (all_spaces (S _)).
  fold (split (format_comma z)). rewrite split_single by assumption.
  cbn [budget_of_tokens]. unfold valid_numeral. rewrite D, P. cbn [andb Nat.leb].
  now rewrite number_value_whole, V.
Qed.

(** X12: the parser reads back what the formatter wrote. The cell of a
    budget that is not zero parses to the float nearest to the rounded
    budget, its sign dropped. *)
Theorem format_then_parse budget z :
  number_truth budget = true ->
  round_number budget = Ok z ->
  exists cell,
    format_budget (Some budget) = Ok cell
    /\ parse_budget cell = Ok (Some (nearest_double (inject_Z (Z.abs z)))).
Proof.
  intros T R. exists ("$ " ++ rjust 12 (format_comma z)). split.
  - rewrite format_budget_cases, T, R. reflexivity.
  - apply parse_cell.
Qed.

Lemma format_then_parse_witness :
  exists cell,
    format_budget (Some (PyInt (-1234567))) = Ok cell
    /\ parse_budget cell = Ok (Some (nearest_double (inject_Z (Z.abs (-1234567))))).
Proof.
  exact (format_then_parse (PyInt (-1234567)) (-1234567) eq_refl eq_refl).
Defined.

(** ** The run as a whole *)

Lemma unlines_app a b : unlines (a ++ b) = unlines a ++ unlines b.
Proof.
  induction a as [|l a IH]; cbn [app unlines fold_right append].
  - reflexivity.
  - fold (unlines (a ++ b)). fold (unlines a).
    now rewrite IH, append_assoc.
Qed.

(** A turn of the loop that does not raise. *)
Lemma row_ok web base big st out st' out' :
  row web base big st out = (Ok st', out') ->
  exists year title link budget cell,
    parse_big big = Ok (year, title, link)
    /\ winner_budget web base big = Ok budget
    /\ tally budget st = Ok st'
    /\ format_budget (option_map PyFloat budget) = Ok cell
    /\ out' = out ++ unlines [report_line year title cell].
Proof.
  unfold row, winner_budget, io_bind, lift, print, ret.
  destruct (parse_big big) as [[[year title] link]|]; [|discriminate].
  cbn [bind].
  destruct (fetch web base link) as [page|]; [|discriminate].
  cbn [bind].
  destruct (bind (get_budget page) _) as [budget|]; [|discriminate].
  destruct (tally budget st) as [st1|] eqn:T; [|discriminate].
  destruct (format_budget _) as [cell|] eqn:C; [|discriminate].
  intros H. injection H as <- <-.
  exists year, title, link, budget, cell.
  split; [reflexivity|]. split; [reflexivity|]. split; [exact T|].
  split; [exact C | reflexivity].
Qed.

(** A turn of the loop that raises writes nothing. *)
Lemma row_raise web base big st out e out' :
  row web base big st out = (Raise e, out') -> out' = out.
Proof.
  unfold row, io_bind, lift, print, ret.
  destruct (parse_big big) as [[[year title] link]|]; [|congruence].
  destruct (fetch web base link) as [page|]; [|congruence].
  destruct (bind (get_budget page) _) as [budget|]; [|congruence].
  destruct (tally budget st) as [st1|]; [|congruence].
  destruct (format_budget _) as [cell|]; [|congruence].
  discriminate.
Qed.

Lemma for_each_ok web base bigs : forall st out st' out',
  for_each bigs (row web base) st out = (Ok st', out') ->
  exists budgets lines,
    Forall2 (fun big b => winner_budget web base big = Ok b) bigs budgets
    /\ Forall2 (fun big line =>
                  exists year title link budget cell,
                    parse_big big = Ok (year, title, link)
                    /\ winner_budget web base big = Ok budget
                    /\ format_budget (option_map PyFloat budget) = Ok cell
                    /\ line = report_line year title cell)
               bigs lines
    /\ out' = out ++ unlines lines
    /\ fold_left (fun r b => st1 <- r ;; tally b st1) budgets (Ok st) = Ok st'.
Proof.
  induction bigs as [|big bigs IH]; intros st out st' out' H.
  - cbn in H. injection H as <- <-. exists [], [].
    split; [constructor|]. split; [constructor|].
    split; [symmetry; apply append_nil_r | reflexivity].
  - cbn [for_each] in H. unfold io_bind in H.
    destruct (row web base big st out) as [[st1|e] out1] eqn:R; [|discriminate].
    destruct (row_ok _ _ _ _ _ _ _ R)
      as (year & title & link & b & cell & P & B & T & C & ->).
    destruct (IH _ _ _ _ H) as (budgets & lines & F & L & -> & S).
    exists (b :: budgets), (report_line year title cell :: lines).
    split; [now constructor|].
    split; [constructor; [now exists year, title, link, b, cell | assumption]|].
    split.
    + change (report_line year title cell :: lines)
        with ([report_line year title cell] ++ lines)%list.
      now rewrite unlines_app, append_assoc.
    + cbn [fold_left bind]. now rewrite T.
Qed.

Lemma sum_of_snoc xs x :
  add_float (sum_of xs) x = Ok (sum_of (xs ++ [x])).
Proof.
  destruct xs as [|y xs].
  - reflexivity.
  - cbn [sum_of add_float app fold_left]. now rewrite fold_left_app.
Qed.

Lemma counted_app a b : counted (a ++ b) = (counted a ++ counted b)%list.
Proof. unfold counted. apply flat_map_app. Qed.

Lemma tally_all budgets : forall seen st',
  fold_left (fun r b => st1 <- r ;; tally b st1) budgets
    (Ok (Z.of_nat (List.length (counted seen)), sum_of (counted seen)))
  = Ok st' ->
  st' = (Z.of_nat (List.length (counted (seen ++ budgets))),
         sum_of (counted (seen ++ budgets))).
Proof.
  induction budgets as [|b budgets IH]; intros seen st' H.
  - cbn in H. injection H as <-. now rewrite app_nil_r.
  - cbn [fold_left bind] in H.
    replace (seen ++ b :: budgets)%list with ((seen ++ [b]) ++ budgets)%list
      by (now rewrite <- app_assoc).
    apply IH. rewrite <- H. f_equal.
    rewrite counted_app. unfold tally.
    destruct b as [x|]; cbn [option_map truth number_truth counted flat_map].
    + destruct (float_truth x); cbn [app].
      * rewrite sum_of_snoc. cbn [bind]. rewrite length_app.
        cbn [List.length]. do 2 f_equal. lia.
      * now rewrite app_nil_r.
    + cbn [app]. now rewrite app_nil_r.
Qed.

Lemma length_counted budgets :
  (List.length (counted budgets) <= List.length budgets)%nat.
Proof.
  induction budgets as [|[x|] budgets IH]; cbn [counted flat_map List.length].
  - lia.
  - fold (counted budgets). rewrite length_app.
    destruct (float_truth x); cbn [List.length]; lia.
  - fold (counted budgets). cbn [app]. lia.
Qed.

(** X13: when the loop ends, [count] is the number of winners whose budget
    is there and is not zero, [total] the sum of those budgets, added in
    the order of the page (and still the integer 0 when there is none); the
    count never exceeds the number of markers. *)
Theorem rows_summary web base out0 count total out :
  rows web base out0 = (Ok (count, total), out) ->
  exists soup budgets,
    fetch web base "/wiki/Academy_Award_for_Best_Picture" = Ok soup
    /\ Forall2 (fun big b => winner_budget web base big = Ok b)
               (find_all soup "big") budgets
    /\ count = Z.of_nat (List.length (counted budgets))
    /\ total = sum_of (counted budgets)
    /\ count <= Z.of_nat (List.length (find_all soup "big")).
Proof.
  unfold rows, io_bind, lift.
  destruct (fetch web base _) as [soup|]; [|discriminate].
  intros H. destruct (for_each_ok _ _ _ _ _ _ _ H) as (budgets & lines & F & _ & _ & S).
  apply (tally_all budgets []) in S. cbn [app] in S. injection S as -> ->.
  exists soup, budgets. repeat split; try assumption.
  rewrite (Forall2_length F). pose proof (length_counted budgets). lia.
Qed.

Lemma rows_summary_witness :
  exists soup budgets,
    fetch site_one_budget example_base "/wiki/Academy_Award_for_Best_Picture"
    = Ok soup
    /\ Forall2 (fun big b => winner_budget site_one_budget example_base big = Ok b)
               (find_all soup "big") budgets
    /\ 1 = Z.of_nat (List.length (counted budgets))
    /\ PyFloat (SFmul prec emax (nearest_double (number_value "2")) million)
       = sum_of (counted budgets)
    /\ 1 <= Z.of_nat (List.length (find_all soup "big")).
Proof.
  refine (rows_summary site_one_budget example_base "" 1 _ _ _).
  vm_compute. reflexivity.
Defined.

Lemma for_each_app {A S} (body : A -> S -> io S) l1 l2 : forall st out,
  for_each (l1 ++ l2) body st out
  = match for_each l1 body st out with
    | (Ok st1, out1) => for_each l2 body st1 out1
    | (Raise e, out1) => (Raise e, out1)
    end.
Proof.
  induction l1 as [|x l1 IH]; intros st out.
  - reflexivity.
  - cbn [app for_each]. unfold io_bind.
    destruct (body x st out) as [[st1|e] out1]; [apply IH | reflexivity].
Qed.

(** X15: an exception stops the run where it is raised. When the index
    page cannot be fetched nothing is written; when a turn of the loop
    raises, the rows of the winners before it stay written, the turn
    itself writes nothing, and neither the later rows nor the average
    follow. *)
Theorem main_aborts web base out0 :
  (forall e,
     fetch web base "/wiki/Academy_Award_for_Best_Picture" = Raise e ->
     main web base out0 = (Raise e, out0))
  /\ (forall soup before big after st out e out',
        fetch web base "/wiki/Academy_Award_for_Best_Picture" = Ok soup ->
        find_all soup "big" = (before ++ big :: after)%list ->
        for_each before (row web base) (0, PyInt 0) out0 = (Ok st, out) ->
        row web base big st out = (Raise e, out') ->
        main web base out0 = (Raise e, out)).
Proof.
  split.
  - intros e F. unfold main, rows, io_bind, lift. now rewrite F.
  - intros soup before big after st out e out' F B L R.
    pose proof (row_raise _ _ _ _ _ _ _ R) as ->.
    unfold main, rows, io_bind, lift. rewrite F, B, for_each_app, L.
    cbn [for_each]. unfold io_bind. now rewrite R.
Qed.

Lemma main_aborts_witness :
  main (site []) example_base "kept" = (Raise URLError, "kept")
  /\ main site_missing_page example_base ""
     = (Raise URLError, unlines [report_line "1927/28" "Wings" "$    2,000,000"]).
Proof.
  split.
  - exact (proj1 (main_aborts (site []) example_base "kept") URLError eq_refl).
  - refine (proj2 (main_aborts site_missing_page example_base "")
              (Element (Tag "[document]" []
                 [winner_table year_1927_28 "/wiki/Wings" "Wings";
                  winner_table year_1939 "/wiki/Gone" "Gone with the Wind"]) [])
              (firstn 1 index_bigs)
              (nth 1 index_bigs big_1939)
              (skipn 2 index_bigs)
              (1, PyFloat (SFmul prec emax (nearest_double (number_value "2")) million))
              _ URLError _ eq_refl eq_refl _ eq_refl).
    vm_compute. reflexivity.
Defined.

Lemma for_each_appends web base bigs : forall st out,
  exists written, snd (for_each bigs (row web base) st out) = out ++ written.
Proof.
  induction bigs as [|big bigs IH]; intros st out.
  - exists "". cbn. now rewrite append_nil_r.
  - cbn [for_each]. unfold io_bind.
    destruct (row web base big st out) as [[st1|e] out1] eqn:R.
    + destruct (row_ok _ _ _ _ _ _ _ R)
        as (year & title & link & b & cell & _ & _ & _ & _ & ->).
      destruct (IH st1 (out ++ unlines [report_line year title cell])) as [w E].
      exists (unlines [report_line year title cell] ++ w).
      now rewrite E, append_assoc.
    + rewrite (row_raise _ _ _ _ _ _ _ R). exists "". cbn.
      now rewrite append_nil_r.
Qed.

(** X16: the script only ever adds to the stream: whatever the site
    answers and however the run ends, what the stream held before is still
    there, in front. *)
Theorem main_appends web base out0 :
  exists written, snd (main web base out0) = out0 ++ written.
Proof.
  unfold main, io_bind.
  assert (R : exists w, snd (rows web base out0) = out0 ++ w).
  { unfold rows, io_bind, lift.
    destruct (fetch web base _) as [soup|e].
    - apply for_each_appends.
    - exists "". cbn. now rewrite append_nil_r. }
  destruct R as [w R].
  destruct (rows web base out0) as [[[count total]|e] out1]; cbn [snd] in R;
    subst out1.
  - unfold average, io_bind, lift, print.
    destruct (truediv_int total count) as [avg|e]; cbn [snd].
    + eexists. rewrite append_assoc. reflexivity.
    + now exists w.
  - now exists w.
Qed.

(** X17: a run that ends well printed one line for each marker, then the
    rule and the average, and nothing else; and it counted a budget at
    least. *)
Theorem main_success web base out0 out :
  main web base out0 = (Ok tt, out) ->
  exists soup lines count total avg,
    fetch web base "/wiki/Academy_Award_for_Best_Picture" = Ok soup
    /\ List.length lines = List.length (find_all soup "big")
    /\ rows web base out0 = (Ok (count, total), out0 ++ unlines lines)
    /\ 0 < count
    /\ truediv_int total count = Ok avg
    /\ out = out0 ++ unlines (lines ++ ["----"; "Average: $ " ++ format_comma_f0 avg]).
Proof.
  unfold main, io_bind.
  destruct (rows web base out0) as [[[count total]|e] out1] eqn:R; [|discriminate].
  pose proof (rows_keep _ _ _ _ _ R) as I. cbn in I.
  assert (L := R). revert L. unfold rows at 1, io_bind, lift.
  destruct (fetch web base _) as [soup|] eqn:F; [|discriminate].
  intros L.
  destruct (for_each_ok _ _ _ _ _ _ _ L) as (budgets & lines & _ & FL & -> & _).
  unfold average, io_bind, lift, print.
  destruct (truediv_int total count) as [avg|e] eqn:D; [|discriminate].
  intros H. injection H as <-.
  exists soup, lines, count, total, avg.
  split; [reflexivity|]. split; [symmetry; exact (Forall2_length FL)|].
  split; [reflexivity|]. split.
  - destruct I as [[-> _]|[C _]]; [|exact C].
    rewrite truediv_by_zero in D. discriminate D.
  - split; [exact D|].
    rewrite unlines_app, !append_assoc. reflexivity.
Qed.

Lemma main_success_witness :
  exists soup lines count total avg,
    fetch site_one_budget example_base "/wiki/Academy_Award_for_Best_Picture"
    = Ok soup
    /\ List.length lines = List.length (find_all soup "big")
    /\ rows site_one_budget example_base "" = (Ok (count, total), "" ++ unlines lines)
    /\ 0 < count
    /\ truediv_int total count = Ok avg
    /\ snd (main site_one_budget example_base "")
       = "" ++ unlines (lines ++ ["----"; "Average: $ " ++ format_comma_f0 avg]).
Proof.
  refine (main_success site_one_budget example_base "" _ _).
  vm_compute. reflexivity.
Defined.

(** ** Elements and their parents *)

(** What [descendants_in] hands out hangs below the node it was asked
    about. *)
Lemma descendants_chain n : forall up d,
  In d (descendants_in up n) ->
  exists mid, ancestors d = (mid ++ n :: up)%list.
Proof.
  induction n as [s|name attrs cs IH] using node_induction; intros up d H.
  - destruct H.
  - cbn [descendants_in] in H. apply in_flat_map in H as (c & C & H).
    destruct H as [<-|H].
    + now exists [].
    + rewrite Forall_forall in IH.
      destruct (IH c C _ _ H) as [mid E].
      exists (mid ++ [c])%list. now rewrite E, <- app_assoc.
Qed.

(** An element that a search returned has a parent. *)
Lemma found_has_parent e name d :
  In d (find_all e name) -> exists p, parent d = Some p.
Proof.
  unfold find_all. intros H. apply filter_In in H as [H _].
  destruct (descendants_chain _ _ _ H) as [mid E].
  unfold parent. rewrite E. destruct mid; cbn [app]; eauto.
Qed.

(** X18: the header cell that [get_budget] picks always has a parent, so
    the only way for [get_budget] to raise is that this parent holds no
    data cell: then, and only then, it raises [AttributeError]. Without a
    header it returns the empty string, and otherwise the texts of the
    first data cell below the parent, joined by blanks. *)
Theorem get_budget_outcome page :
  match budget_headers page with
  | [] => get_budget page = Ok ""
  | th :: _ =>
      exists row,
        parent th = Some row
        /\ get_budget page
           = match find row "td" with
             | Some td => Ok (join " " (find_all_text td))
             | None => Raise AttributeError
             end
  end.
Proof.
  unfold get_budget. fold (budget_headers page).
  destruct (budget_headers page) as [|th ths] eqn:B; [reflexivity|].
  assert (I : In th (find_all page "th")).
  { assert (J : In th (budget_headers page)) by (rewrite B; now left).
    unfold budget_headers in J. now apply filter_In in J. }
  destruct (found_has_parent _ _ _ I) as [row P].
  exists row. split; [exact P|]. rewrite P. cbn [deref bind].
  now destruct (find row "td").
Qed.

Example get_budget_no_cell :
  get_budget (Element page_header_only []) = Raise AttributeError.
Proof. reflexivity. Qed.

(** X19: [parse_big] raises nothing but [AttributeError], [IndexError]
    and [KeyError]; [IndexError] only for a marker without any text, and
    [KeyError] only when the first link of the cell has no [href]. A
    marker that a search returned has a parent; it is the grandparent, the
    table, that may be missing. *)
Theorem parse_big_errors big e :
  parse_big big = Raise e ->
  e = AttributeError
  \/ (e = IndexError /\ find_all_text big = [])
  \/ (e = KeyError
      /\ exists up table td a,
           parent big = Some up /\ parent up = Some table
           /\ find table "td" = Some td /\ find td "a" = Some a
           /\ attr a "href" = Raise KeyError).
Proof.
  unfold parse_big.
  destruct (parent big) as [up|] eqn:U; cbn [deref bind];
    [|intros H; injection H as <-; now left].
  destruct (parent up) as [table|] eqn:T; cbn [deref bind];
    [|intros H; injection H as <-; now left].
  destruct (get_year big) as [year|ey] eqn:Y; cbn [bind].
  - unfold get_title, get_link.
    destruct (find table "td") as [td|] eqn:D; cbn [deref bind];
      [|intros H; injection H as <-; now left].
    destruct (find td "a") as [a|] eqn:A; cbn [deref bind];
      [|intros H; injection H as <-; now left].
    destruct (attr a "href") as [link|el] eqn:L; cbn [bind]; [discriminate|].
    intros H. injection H as <-.
    assert (K : el = AttributeError \/ el = KeyError).
    { unfold attr in L. destruct (self a) as [s|name attrs cs].
      - injection L as <-. now left.
      - right. induction attrs as [|[k v] attrs IH]; cbn [lookup] in L.
        + now injection L as <-.
        + destruct (String.eqb k "href"); [discriminate | auto]. }
    destruct K as [->| ->]; [now left|].
    right. right. split; [reflexivity|]. now exists up, table, td, a.
  - intros H. injection H as <-. unfold get_year in Y.
    destruct (find_all_text big) as [|t0 [|t1 ts]].
    + cbn in Y. injection Y as <-. right. left. now split.
    + cbn in Y. discriminate Y.
    + rewrite more_than_one in Y. cbn [nth_error andb] in Y.
      destruct (String.eqb t1 "/"); cbn [index nth_error bind] in Y;
        discriminate Y.
Qed.

Lemma parse_big_errors_witness :
  IndexError = AttributeError
  \/ (IndexError = IndexError
      /\ find_all_text (Element (Tag "big" [] [])
                          [Tag "caption" [] [Tag "big" [] []];
                           Tag "table" [] [Tag "caption" [] [Tag "big" [] []]]])
         = [])
  \/ (IndexError = KeyError
      /\ exists up table td a,
           parent (Element (Tag "big" [] [])
                     [Tag "caption" [] [Tag "big" [] []];
                      Tag "table" [] [Tag "caption" [] [Tag "big" [] []]]])
           = Some up
           /\ parent up = Some table
           /\ find table "td" = Some td /\ find td "a" = Some a
           /\ attr a "href" = Raise KeyError).
Proof.
  apply (parse_big_errors
           (Element (Tag "big" [] [])
              [Tag "caption" [] [Tag "big" [] []];
               Tag "table" [] [Tag "caption" [] [Tag "big" [] []]]])
           IndexError).
  reflexivity.
Defined.

(** ** The outcomes on examples *)

Lemma parse_number_outcome_witness :
  (exists x, parse_number "12.5%" = Ok x)
  /\ nearest_double (number_value "12.5%") = nearest_double (number_value "12.5%")
  /\ ValueError = ValueError.
Proof.
  split; [|split].
  - exact (proj2 (proj1 (parse_number_outcome "12.5%")) eq_refl).
  - refine (proj1 (proj2 (parse_number_outcome "12.5%")) _ _).
    vm_compute. reflexivity.
  - exact (proj2 (proj2 (parse_number_outcome "n/a")) ValueError eq_refl).
Defined.

Lemma parse_budget_none_iff_witness :
  parse_budget "no price" = Ok None
  /\ char_in "$" "" = false
  /\ (ValueError = IndexError \/ ValueError = ValueError).
Proof.
  split; [|split].
  - exact (proj2 (proj1 (parse_budget_none_iff "no price")) eq_refl).
  - exact (proj1 (proj1 (parse_budget_none_iff "")) eq_refl).
  - exact (proj2 (parse_budget_none_iff "$unknown") ValueError eq_refl).
Defined.

(** ** The cell, the line and the rows, spelled out *)

(** X8: the cell [format_budget] returns is the prefix ["$ "], then blanks,
    then the whole number: ["-"] for a budget that is [None] or zero, and
    otherwise the rounded budget with its thousands grouped. The blanks
    fill the number up to 12 columns and are none when it is wider, so the
    number is never cut; the cell is 14 characters long or longer.
    [format_budget] raises only for the floats [round] cannot take:
    [OverflowError] for an infinity, [ValueError] for a NaN. *)
Theorem format_budget_shape budget :
  (truth budget = false -> format_budget budget = Ok "$            -")
  /\ (forall x z,
        budget = Some x -> number_truth x = true -> round_number x = Ok z ->
        format_budget budget
        = Ok ("$ " ++ spaces (12 - String.length (format_comma z))
                   ++ format_comma z)
        /\ String.length ("$ " ++ spaces (12 - String.length (format_comma z))
                               ++ format_comma z)
           = (2 + Nat.max 12 (String.length (format_comma z)))%nat)
  /\ (forall e, format_budget budget = Raise e ->
        (e = OverflowError /\ exists s, budget = Some (PyFloat (S754_infinity s)))
        \/ (e = ValueError /\ budget = Some (PyFloat S754_nan)))
  /\ format_budget (Some (PyInt 1234567890123)) = Ok "$ 1,234,567,890,123"
  /\ format_budget (Some (PyFloat (S754_finite false 5429388417957888 (-42))))
     = Ok "$        1,234".
Proof.
  split; [|split; [|split; [|split]]].
  - apply format_budget_falsy.
  - intros x z -> T R. rewrite format_budget_cases, T, R. cbn [bind].
    split; [reflexivity|].
    rewrite !length_append, length_spaces. simpl String.length. lia.
  - rewrite format_budget_cases.
    destruct budget as [[z|x]|]; cbn [number_truth round_number].
    + destruct (negb (z =? 0)); cbn [bind]; intros ? H; discriminate H.
    + destruct x as [s|s| |s m e]; cbn [float_truth round bind];
        try (intros ? H; discriminate H).
      * intros e H. injection H as <-. left. eauto.
      * intros e H. injection H as <-. right. eauto.
    + cbn [bind]. intros ? H. discriminate H.
  - vm_compute. reflexivity.
  - vm_compute. reflexivity.
Qed.

Lemma format_budget_shape_witness :
  format_budget (Some (PyFloat (S754_zero true))) = Ok "$            -"
  /\ (format_budget (Some (PyInt (-1234567)))
      = Ok ("$ " ++ spaces (12 - String.length (format_comma (-1234567)))
                 ++ format_comma (-1234567))
      /\ String.length ("$ " ++ spaces (12 - String.length (format_comma (-1234567)))
                             ++ format_comma (-1234567))
         = (2 + Nat.max 12 (String.length (format_comma (-1234567))))%nat)
  /\ ((OverflowError = OverflowError
       /\ exists s, Some (PyFloat (S754_infinity false))
                    = Some (PyFloat (S754_infinity s)))
      \/ (OverflowError = ValueError
          /\ Some (PyFloat (S754_infinity false)) = Some (PyFloat S754_nan))).
Proof.
  split; [|split].
  - exact (proj1 (format_budget_shape (Some (PyFloat (S754_zero true)))) eq_refl).
  - exact (proj1 (proj2 (format_budget_shape (Some (PyInt (-1234567)))))
             (PyInt (-1234567)) (-1234567) eq_refl eq_refl eq_refl).
  - exact (proj1 (proj2 (proj2
             (format_budget_shape (Some (PyFloat (S754_infinity false))))))
             OverflowError eq_refl).
Defined.

(** X11: a turn of the loop that does not raise writes one line and cuts
    nothing in it: the whole year of the marker, blanks up to 8 columns
    when the year is shorter, a blank, the whole title, blanks up to 50
    columns when the title is shorter, a blank, the cell of the winner's
    budget and the end of line. A title longer than 50 characters is
    written in full and pushes the cell to the right. *)
Theorem row_never_truncates :
  (forall web base big st out st' out',
     row web base big st out = (Ok st', out') ->
     exists year title link budget cell,
       parse_big big = Ok (year, title, link)
       /\ winner_budget web base big = Ok budget
       /\ format_budget (option_map PyFloat budget) = Ok cell
       /\ out' = out ++ (year ++ spaces (8 - String.length year)) ++ " "
                     ++ (title ++ spaces (50 - String.length title)) ++ " "
                     ++ cell ++ String "010" ""
       /\ String.length out'
          = (String.length out
             + (Nat.max 8 (String.length year) + 1
                + Nat.max 50 (String.length title) + 1
                + String.length cell + 1))%nat)
  /\ main site_long_title example_base ""
     = (Ok tt,
        "2003     The Lord of the Rings: The Return of the King (extended) $   94,000,000"
        ++ String "010" "----"
        ++ String "010" "Average: $ 94,000,000"
        ++ String "010" "").
Proof.
  split; [|vm_compute; reflexivity].
  intros web base big st out st' out' R.
  destruct (row_ok _ _ _ _ _ _ _ R)
    as (year & title & link & b & cell & P & B & _ & C & ->).
  exists year, title, link, b, cell.
  split; [exact P|]. split; [exact B|]. split; [exact C|]. split.
  - unfold unlines, report_line, ljust. cbn [fold_right].
    now rewrite !append_assoc.
  - unfold unlines, report_line. cbn [fold_right].
    rewrite !length_append, !length_ljust. simpl String.length. lia.
Qed.

Lemma row_never_truncates_witness :
  exists year title link budget cell,
    parse_big (nth 0 (find_all (Element (Tag "[document]" []
                 [winner_table [NavigableString "2003"] "/wiki/Return" long_title]) [])
                 "big") big_1939)
    = Ok (year, title, link)
    /\ winner_budget site_long_title example_base
         (nth 0 (find_all (Element (Tag "[document]" []
                 [winner_table [NavigableString "2003"] "/wiki/Return" long_title]) [])
                 "big") big_1939)
       = Ok budget
    /\ format_budget (option_map PyFloat budget) = Ok cell
    /\ "2003     The Lord of the Rings: The Return of the King (extended) $   94,000,000"
       ++ String "010" ""
       = "" ++ (year ++ spaces (8 - String.length year)) ++ " "
            ++ (title ++ spaces (50 - String.length title)) ++ " "
            ++ cell ++ String "010" ""
    /\ String.length
         ("2003     The Lord of the Rings: The Return of the King (extended) $   94,000,000"
          ++ String "010" "")
       = (String.length ""
          + (Nat.max 8 (String.length year) + 1
             + Nat.max 50 (String.length title) + 1
             + String.length cell + 1))%nat.
Proof.
  refine (proj1 row_never_truncates site_long_title example_base _ (0, PyInt 0) ""
            (1, PyFloat (SFmul prec emax (nearest_double (number_value "94")) million))
            _ _).
  vm_compute. reflexivity.
Defined.

(** X14: the rows of a run that reaches the average: after what the
    stream held, one line for each marker, in the order of the page; the
    line of a marker holds its year, the title of its winner and the cell
    [format_budget] makes of the budget found on the winner's page. *)
Theorem rows_lines :
  (forall web base out0 st out,
     rows web base out0 = (Ok st, out) ->
     exists soup lines,
       fetch web base "/wiki/Academy_Award_for_Best_Picture" = Ok soup
       /\ List.length lines = List.length (find_all soup "big")
       /\ out = out0 ++ unlines lines
       /\ Forall2 (fun big line =>
                     exists year title link budget cell,
                       parse_big big = Ok (year, title, link)
                       /\ winner_budget web base big = Ok budget
                       /\ format_budget (option_map PyFloat budget) = Ok cell
                       /\ line = ljust 8 year ++ " " ++ ljust 50 title ++ " " ++ cell)
                  (find_all soup "big") lines)
  /\ snd (rows site_two_budgets example_base "report" )
     = "report"
       ++ "1927/28  Wings                                              $    2,000,000"
       ++ String "010"
          "1939     Gone with the Wind                                 $    1,000,001"
       ++ String "010" "".
Proof.
  split; [|vm_compute; reflexivity].
  intros web base out0 st out. unfold rows, io_bind, lift.
  destruct (fetch web base _) as [soup|]; [|discriminate].
  intros H.
  destruct (for_each_ok _ _ _ _ _ _ _ H) as (budgets & lines & _ & L & -> & _).
  exists soup, lines. split; [reflexivity|].
  split; [symmetry; exact (Forall2_length L)|]. now split.
Qed.

Lemma rows_lines_witness :
  exists soup lines,
    fetch site_no_budget example_base "/wiki/Academy_Award_for_Best_Picture"
    = Ok soup
    /\ List.length lines = List.length (find_all soup "big")
    /\ snd (rows site_no_budget example_base "report:") = "report:" ++ unlines lines
    /\ Forall2 (fun big line =>
                  exists year title link budget cell,
                    parse_big big = Ok (year, title, link)
                    /\ winner_budget site_no_budget example_base big = Ok budget
                    /\ format_budget (option_map PyFloat budget) = Ok cell
                    /\ line = ljust 8 year ++ " " ++ ljust 50 title ++ " " ++ cell)
               (find_all soup "big") lines.
Proof.
  refine (proj1 rows_lines site_no_budget example_base "report:" (0, PyInt 0) _ _).
  vm_compute. reflexivity.
Defined.

(** ** The count as a divisor *)

Lemma shr_1_half mrs : 0 <= shr_m mrs -> shr_m (shr_1 mrs) = shr_m mrs / 2.
Proof.
  destruct mrs as [m r s]. cbn [shr_m]. intros H.
  destruct m as [|[p|p|]|p]; cbn [shr_1 shr_m]; try lia.
  - reflexivity.
  - apply Z.div_unique with 1; lia.
  - apply Z.div_unique with 0; lia.
  - reflexivity.
Qed.

Lemma iter_shr_1_div n : forall mrs,
  0 <= shr_m mrs ->
  shr_m (iter_pos shr_1 n mrs) = shr_m mrs / 2 ^ Zpos n.
Proof.
  induction n as [n IH|n IH|]; intros mrs H; cbn [iter_pos].
  - rewrite IH by (apply iter_shr_1_nonneg; now apply shr_1_nonneg).
    rewrite IH by now apply shr_1_nonneg.
    rewrite shr_1_half by assumption.
    assert (P : 0 < 2 ^ Zpos n) by (apply Z.pow_pos_nonneg; lia).
    assert (Q : 2 ^ Zpos n~1 = 2 * (2 ^ Zpos n * 2 ^ Zpos n)).
    { replace (Zpos n~1) with (1 + (Zpos n + Zpos n)) by lia.
      rewrite !Z.pow_add_r by lia. reflexivity. }
    rewrite !Z.div_div by lia. now rewrite Q.
  - rewrite IH by now apply iter_shr_1_nonneg.
    rewrite IH by assumption.
    assert (P : 0 < 2 ^ Zpos n) by (apply Z.pow_pos_nonneg; lia).
    assert (Q : 2 ^ Zpos n~0 = 2 ^ Zpos n * 2 ^ Zpos n).
    { replace (Zpos n~0) with (Zpos n + Zpos n) by lia.
      apply Z.pow_add_r; lia. }
    rewrite Z.div_div by lia. now rewrite Q.
  - now apply shr_1_half.
Qed.

(** Shifting a mantissa to its place never shifts all of it out, as long
    as the exponent is not below the least one. *)
Lemma shr_fexp_positive m e l :
  0 < m -> emin prec emax <= e ->
  0 < shr_m (fst (shr_fexp prec emax m e l))
  /\ e <= snd (shr_fexp prec emax m e l).
Proof.
  intros M E. destruct m as [|q|q]; try lia.
  unfold shr_fexp, shr. cbn [Zdigits2].
  pose proof (digits2_pos_low q) as Low.
  destruct (fexp prec emax (Zpos (digits2_pos q) + e) - e) as [|k|k] eqn:N;
    cbn [fst snd]; rewrite ?shr_record_of_loc_m; try (split; lia).
  rewrite iter_shr_1_div by (rewrite shr_record_of_loc_m; lia).
  rewrite shr_record_of_loc_m. split; [|lia].
  assert (K : Zpos k <= Zpos (digits2_pos q) - 1).
  { revert N. unfold fexp, emin, prec, emax in *. lia. }
  apply Z.div_str_pos. split; [apply Z.pow_pos_nonneg; lia|].
  apply Z.le_trans with (2 ^ (Zpos (digits2_pos q) - 1)); [|exact Low].
  apply Z.pow_le_mono_r; lia.
Qed.

Lemma round_nearest_even_positive m l : 0 < m -> 0 < round_nearest_even m l.
Proof.
  intros H. unfold round_nearest_even.
  destruct l as [|[]]; try lia. destruct (Z.even m); lia.
Qed.

(** Rounding a positive mantissa never gives zero. *)
Lemma binary_round_aux_truth s m e l :
  0 < m -> emin prec emax <= e ->
  float_truth (binary_round_aux prec emax s m e l) = true.
Proof.
  intros M E. unfold binary_round_aux.
  destruct (shr_fexp_positive m e l M E) as [M1 E1].
  destruct (shr_fexp prec emax m e l) as [mrs1 e1]. cbn [fst snd] in M1, E1.
  pose proof (round_nearest_even_positive _ (loc_of_shr_record mrs1) M1) as M2.
  destruct (shr_fexp_positive _ e1 loc_Exact M2 ltac:(lia)) as [M3 _].
  destruct (shr_fexp prec emax (round_nearest_even (shr_m mrs1)
                                  (loc_of_shr_record mrs1)) e1 loc_Exact)
    as [mrs2 e2].
  cbn [fst] in M3.
  destruct (shr_m mrs2) as [|p|p]; [lia | | reflexivity].
  now destruct (e2 <=? emax - prec).
Qed.

(** A positive [int] is never the float zero: it converts to a float that
    is not zero, or it is too large to convert. *)
Lemma float_of_int_positive count :
  0 < count ->
  float_of_int count = Raise OverflowError
  \/ exists c, float_of_int count = Ok c /\ float_truth c = true.
Proof.
  intros P. destruct count as [|p|p]; try lia.
  unfold float_of_int, binary_normalize, binary_round.
  assert (T : float_truth
                (let '(mz, ez) :=
                   shl_align p 0 (fexp prec emax (Zpos (digits2_pos p) + 0)) in
                 binary_round_aux prec emax false (Zpos mz) ez loc_Exact) = true).
  { unfold shl_align.
    destruct (fexp prec emax (Zpos (digits2_pos p) + 0) - 0) as [|k|k] eqn:K.
    - apply binary_round_aux_truth; [lia | unfold emin, prec, emax; lia].
    - apply binary_round_aux_truth; [lia | unfold emin, prec, emax; lia].
    - apply binary_round_aux_truth; [lia|].
      unfold fexp. lia. }
  destruct (let '(mz, ez) := shl_align p 0 _ in _) as [s|s| |s m e];
    try discriminate T; [now left | right; eauto | right; eauto].
Qed.

Lemma counted_nonempty budgets :
  0 < Z.of_nat (List.length (counted budgets)) ->
  sum_of (counted budgets)
  = PyFloat (fold_left (SFadd prec emax) (counted budgets) (S754_zero false)).
Proof.
  destruct (counted budgets) as [|x xs]; cbn [List.length].
  - lia.
  - reflexivity.
Qed.

(** C8: once the rows are printed, a count of zero makes the division
    raise [ZeroDivisionError], which nothing catches: the rows stay
    printed and no average follows. With a count above zero, the count is
    the number of budgets found that are not zero, the total is their sum,
    and the last line shows the total divided by the count, rounded to a
    whole number with its thousands grouped (a count too large for a float
    would raise [OverflowError] instead; below [2^53] the count is
    converted exactly). On a site with two budgets, of 2,000,000 and
    1,000,001 dollars, the average printed is 1,500,000. *)
Theorem average_of_rows :
  (forall web base out0 total out,
     rows web base out0 = (Ok (0, total), out) ->
     total = PyInt 0
     /\ main web base out0 = (Raise ZeroDivisionError, out))
  /\ (forall web base out0 count total out,
        rows web base out0 = (Ok (count, total), out) ->
        0 < count ->
        exists soup budgets,
          fetch web base "/wiki/Academy_Award_for_Best_Picture" = Ok soup
          /\ Forall2 (fun big b => winner_budget web base big = Ok b)
                     (find_all soup "big") budgets
          /\ count = Z.of_nat (List.length (counted budgets))
          /\ total = PyFloat (fold_left (SFadd prec emax) (counted budgets)
                                (S754_zero false))
          /\ main web base out0
             = match float_of_int count with
               | Ok c =>
                   (Ok tt,
                    out ++ ("----" ++ String "010" "" ++ "Average: $ "
                            ++ format_comma_f0
                                 (SFdiv prec emax
                                    (fold_left (SFadd prec emax) (counted budgets)
                                       (S754_zero false)) c))
                        ++ String "010" "")
               | Raise e => (Raise e, out)
               end)
  /\ (forall count,
        0 < count < 2 ^ 53 ->
        exists c, float_of_int count = Ok c /\ represents c (inject_Z count))
  /\ main site_two_budgets example_base ""
     = (Ok tt,
        "1927/28  Wings                                              $    2,000,000"
        ++ String "010"
           "1939     Gone with the Wind                                 $    1,000,001"
        ++ String "010" "----"
        ++ String "010" "Average: $ 1,500,000"
        ++ String "010" "")
  /\ main site_no_budget example_base ""
     = (Raise ZeroDivisionError,
        "1927/28  Wings                                              $            -"
        ++ String "010"
           "1939     Gone with the Wind                                 $            -"
        ++ String "010" "").
Proof.
  split; [|split; [|split; [|split]]].
  - intros web base out0 total out R.
    pose proof (rows_keep _ _ _ _ _ R) as I. cbn in I.
    destruct I as [[_ ->]|[C _]]; [|lia]. split; [reflexivity|].
    unfold main, io_bind. rewrite R. unfold average, io_bind, lift.
    now rewrite truediv_by_zero.
  - intros web base out0 count total out R P.
    assert (L := R). revert L. unfold rows at 1, io_bind, lift.
    destruct (fetch web base _) as [soup|] eqn:F; [|discriminate].
    intros L.
    destruct (for_each_ok _ _ _ _ _ _ _ L) as (budgets & lines & FB & _ & _ & S).
    apply (tally_all budgets []) in S. cbn [app] in S. injection S as C T.
    exists soup, budgets.
    split; [reflexivity|]. split; [exact FB|]. split; [exact C|].
    rewrite C in P. rewrite (counted_nonempty _ P) in T.
    split; [exact T|].
    unfold main, io_bind. rewrite R. unfold average, io_bind, lift, print.
    rewrite T. cbn [truediv_int].
    rewrite <- C in P.
    destruct (float_of_int_positive count P) as [E|(c & E & V)]; rewrite E.
    + reflexivity.
    + cbn [bind]. rewrite V. reflexivity.
  - intros count B.
    destruct (float_of_int_small count B) as (m & e & F & E & V).
    exists (S754_finite false m e). split; [exact F|].
    now apply float_of_int_represents.
  - vm_compute. reflexivity.
  - vm_compute. reflexivity.
Qed.

Lemma average_of_rows_witness :
  (PyInt 0 = PyInt 0
   /\ main site_no_budget example_base "log"
      = (Raise ZeroDivisionError,
         "log" ++ unlines [report_line "1927/28" "Wings" dash_cell;
                           report_line "1939" "Gone with the Wind" dash_cell]))
  /\ (exists soup budgets,
        fetch site_two_budgets example_base "/wiki/Academy_Award_for_Best_Picture"
        = Ok soup
        /\ Forall2 (fun big b => winner_budget site_two_budgets example_base big = Ok b)
                   (find_all soup "big") budgets
        /\ 2 = Z.of_nat (List.length (counted budgets))
        /\ PyFloat (S754_finite false 6442453091483648 (-31))
           = PyFloat (fold_left (SFadd prec emax) (counted budgets)
                        (S754_zero false))
        /\ main site_two_budgets example_base ""
           = match float_of_int 2 with
             | Ok c =>
                 (Ok tt,
                  unlines [report_line "1927/28" "Wings" "$    2,000,000";
                           report_line "1939" "Gone with the Wind" "$    1,000,001"]
                  ++ ("----" ++ String "010" "" ++ "Average: $ "
                      ++ format_comma_f0
                           (SFdiv prec emax
                              (fold_left (SFadd prec emax) (counted budgets)
                                 (S754_zero false)) c))
                  ++ String "010" "")
             | Raise e =>
                 (Raise e,
                  unlines [report_line "1927/28" "Wings" "$    2,000,000";
                           report_line "1939" "Gone with the Wind" "$    1,000,001"])
             end)
  /\ (exists c, float_of_int 2 = Ok c /\ represents c (inject_Z 2)).
Proof.
  split; [|split].
  - refine (proj1 average_of_rows site_no_budget example_base "log" (PyInt 0) _ _).
    vm_compute. reflexivity.
  - refine (proj1 (proj2 average_of_rows) site_two_budgets example_base "" 2
              (PyFloat (S754_finite false 6442453091483648 (-31))) _ _ eq_refl).
    vm_compute. reflexivity.
  - refine (proj1 (proj2 (proj2 average_of_rows)) 2 _). split; reflexivity.
Defined.
